(** * MEMORISE NLP API demo: a shallow embedding of [memorise_api_demo.py]

    The program is a thin orchestration layer: it detects the language of a
    text, issues HTTP requests to three remote services, normalises the JSON
    reply for display and wires four UI events.  The embedding keeps that
    shape:

    - JSON values (what [json.loads] returns) are an inductive type; Python
      [dict]s parsed from JSON are insertion-ordered association lists;
    - Python [str] values are represented by their UTF-8 encoding (a Rocq
      [string] is a byte string);
    - exceptions are an error type, and every function that can raise or
      touch the outside world lives in a small state-and-error monad over a
      [World] (module globals, the log of HTTP requests, the file system);
    - the remote services, [json.loads], the language detector and what
      pandas does beyond reading a sequence of records are external
      collaborators: Section variables. *)

From Stdlib Require Import String Ascii List ZArith Bool Lia.
From Stdlib Require Import PrimFloat.
From stdpp Require Import base option list gmap strings.
Import ListNotations.

Local Open Scope string_scope.
Local Open Scope list_scope.

(** ** JSON values and Python dictionaries *)

(** What [json.loads] produces: [None], [bool], [int], [float], [str],
    [list] and [dict] (string keys, insertion order kept). *)
#[local] Unset Elimination Schemes.
Inductive json : Type :=
| JNull
| JBool (b : bool)
| JInt (z : Z)
| JFloat (f : float)
| JStr (s : string)
| JArr (items : list json)
| JObj (fields : list (string * json)).
#[local] Set Elimination Schemes.

(** A Python [dict] with string keys, in insertion order. *)
Definition dict (V : Type) : Type := list (string * V).

(** [d.keys()] / [list(d)] *)
Definition dict_keys {V} (d : dict V) : list string := map fst d.

(** [k in d.keys()] *)
Definition dict_mem {V} (k : string) (d : dict V) : bool :=
  existsb (String.eqb k) (dict_keys d).

(** [d[k]], [None] standing for the [KeyError]. *)
Fixpoint dict_get {V} (k : string) (d : dict V) : option V :=
  match d with
  | [] => None
  | (k', v) :: d' => if String.eqb k k' then Some v else dict_get k d'
  end.

(** ** Exceptions and outcomes *)

Inductive exn : Type :=
| KeyError (key : string)
| IndexError
| TypeError
| AttributeError (attr : string)
| JSONDecodeError
| RequestException
| FileNotFoundError
| UnicodeDecodeError.

Inductive outcome (A : Type) : Type :=
| Return (a : A)
| Raise (e : exn).
Arguments Return {A} a.
Arguments Raise {A} e.

(** ** The world: module globals, network log, file system *)

Inductive http_method : Type := GET | POST.

(** One call of [requests.get(url)] or [requests.post(url, json=body)]. *)
Record http_request : Type := HttpRequest {
  http_verb : http_method;
  http_url : string;
  http_json : option json
}.

Record World : Type := MkWorld {
  (** the module-level dictionary [LANG_2_FLORES] (a mutable Python object) *)
  lang_2_flores : list (string * string);
  (** every HTTP request issued so far, oldest first *)
  http_log : list http_request;
  (** the file system: path to raw bytes *)
  files : gmap string string
}.

Definition log_request (r : http_request) (w : World) : World :=
  {| lang_2_flores := lang_2_flores w;
     http_log := http_log w ++ [r];
     files := files w |}.

(** ** The state-and-error monad *)

Definition M (A : Type) : Type := World -> outcome A * World.

Definition ret {A} (a : A) : M A := fun w => (Return a, w).

Definition raise {A} (e : exn) : M A := fun w => (Raise e, w).

Definition bind {A B} (m : M A) (k : A -> M B) : M B :=
  fun w =>
    match m w with
    | (Return a, w') => k a w'
    | (Raise e, w') => (Raise e, w')
    end.

Definition lift_outcome {A} (o : outcome A) : M A := fun w => (o, w).

Declare Scope py_scope.
Delimit Scope py_scope with py.
Notation "x <- m ;; k" := (bind m (fun x => k))
  (at level 100, m at next level, right associativity) : py_scope.

Definition from_option {A} (e : exn) (o : option A) : outcome A :=
  match o with
  | Some a => Return a
  | None => Raise e
  end.

(** Sequencing of pure steps that may raise. *)
Definition and_then {A B} (o : outcome A) (k : A -> outcome B) : outcome B :=
  match o with
  | Return a => k a
  | Raise e => Raise e
  end.

Definition outcome_map {A B} (f : A -> B) (o : outcome A) : outcome B :=
  and_then o (fun a => Return (f a)).

(** ** Python strings *)

(** Python [str] values are carried as their UTF-8 encoding.  [startswith]
    is then the byte-wise prefix test [String.prefix] (UTF-8 is a prefix
    code), and [lower] is given on the ASCII letters, which is all an enum
    member name contains. *)
Definition byte_in (lo hi : N) (c : ascii) : bool :=
  let n := N_of_ascii c in (N.leb lo n) && (N.leb n hi).

Definition ascii_lower (c : ascii) : ascii :=
  if byte_in 65 90 c then ascii_of_N (N_of_ascii c + 32) else c.

(** [s.lower()] *)
Fixpoint lower (s : string) : string :=
  match s with
  | EmptyString => EmptyString
  | String c r => String (ascii_lower c) (lower r)
  end.

(** [l.startswith(p)] *)
Definition startswith (l p : string) : bool := String.prefix p l.

Definition is_continuation : ascii -> bool := byte_in 128 191.

(** Iterating over a [str] yields its characters: a lead byte with the
    continuation bytes that follow it.  The first component collects the
    continuation bytes met before any lead byte. *)
Fixpoint chars_from (s : string) : string * list string :=
  match s with
  | EmptyString => (EmptyString, [])
  | String c r =>
      let '(pending, cs) := chars_from r in
      if is_continuation c then (String c pending, cs)
      else (EmptyString, String c pending :: cs)
  end.

Definition chars (s : string) : list string := snd (chars_from s).

(** The strict UTF-8 decoder of Python ([encoding="utf8"]) accepts exactly
    the well-formed byte sequences of the Unicode standard: no overlong
    forms, no surrogates, nothing above U+10FFFF. *)
Definition second_of_three (b0 b1 : ascii) : bool :=
  if byte_in 224 224 b0 then byte_in 160 191 b1
  else if byte_in 237 237 b0 then byte_in 128 159 b1
  else is_continuation b1.

Definition second_of_four (b0 b1 : ascii) : bool :=
  if byte_in 240 240 b0 then byte_in 144 191 b1
  else if byte_in 244 244 b0 then byte_in 128 143 b1
  else is_continuation b1.

Fixpoint utf8_valid (s : string) : bool :=
  match s with
  | EmptyString => true
  | String b0 r0 =>
      if byte_in 0 127 b0 then utf8_valid r0
      else match r0 with
      | EmptyString => false
      | String b1 r1 =>
          if byte_in 194 223 b0 then is_continuation b1 && utf8_valid r1
          else match r1 with
          | EmptyString => false
          | String b2 r2 =>
              if byte_in 224 239 b0 then
                second_of_three b0 b1 && is_continuation b2 && utf8_valid r2
              else match r2 with
              | EmptyString => false
              | String b3 r3 =>
                  byte_in 240 244 b0 && second_of_four b0 b1
                  && is_continuation b2 && is_continuation b3 && utf8_valid r3
              end
          end
      end
  end.

(** [bytes.decode("utf8")]: the identity on well-formed input, since text is
    carried as UTF-8. *)
Definition utf8_decode (raw : string) : option string :=
  if utf8_valid raw then Some raw else None.

Definition CR : ascii := ascii_of_N 13.
Definition LF : ascii := ascii_of_N 10.

(** Text-mode reading with the default [newline=None]: the line endings
    CR LF and CR are translated to LF. *)
Fixpoint universal_newlines (s : string) : string :=
  match s with
  | EmptyString => EmptyString
  | String c r =>
      if Ascii.eqb c CR then
        match r with
        | String c' r' =>
            if Ascii.eqb c' LF then String LF (universal_newlines r')
            else String LF (universal_newlines r)
        | EmptyString => String LF EmptyString
        end
      else String c (universal_newlines r)
  end.

(** ** Tables: the part of pandas the program uses *)

(** A cell holds a JSON value, or NaN ([None]), which is what a record
    without the key of the column gives. *)
Definition cell : Type := option json.

(** A [DataFrame] as pandas stores it: column labels, a [RangeIndex] given
    by its length (the number of rows), and one array per column. *)
Record DataFrame : Type := MkDataFrame {
  columns : list string;
  index : nat;
  arrays : list (list cell)
}.

(** [len(df)] *)
Definition nrows (df : DataFrame) : nat := index df.

(** [label in df.columns] *)
Definition has_column (label : string) (df : DataFrame) : bool :=
  existsb (String.eqb label) (columns df).

(** [lib.fast_unique_multiple_list_gen(gen, sort=False)]: the keys of all
    records, each once, in order of first appearance. *)
Definition add_unique (uniques : list string) (val : string) : list string :=
  if existsb (String.eqb val) uniques then uniques else uniques ++ [val].

Definition fast_unique_multiple_list_gen (gen : list (list string)) : list string :=
  fold_left (fun uniques buf => fold_left add_unique buf uniques) gen [].

(** pandas converts every column it has read from records
    ([convert_object_array]): a column of numbers may become a column of
    floats, null may be stored as NaN, and what is done depends on the
    whole column and on the version of pandas, which the program does not
    fix.  The conversion is therefore a parameter, of which only what every
    version does is assumed: a column keeps its length, a missing value
    stays NaN, and a string stays that string. *)
Record ColumnConversion : Type := MkColumnConversion {
  convert_column : list cell -> list cell;
  convert_length : forall col, length (convert_column col) = length col;
  convert_nan : forall col i,
    nth_error col i = Some None -> nth_error (convert_column col) i = Some None;
  convert_str : forall col i s,
    nth_error col i = Some (Some (JStr s)) ->
    nth_error (convert_column col) i = Some (Some (JStr s))
}.

(** [lib.dicts_to_array(data, columns)] transposed and converted: one array
    per column, each with one cell per record. *)
Definition dicts_to_arrays (pandas : ColumnConversion)
           (data : list (dict json)) (cols : list string) : list (list cell) :=
  map (fun c => convert_column pandas (map (dict_get c) data)) cols.

(** [_extract_index(arrays)]: [from_records] passes no index, so the row
    index is inferred from the column arrays; with no array at all it is
    the empty index. *)
Definition extract_index (arrs : list (list cell)) : nat :=
  match arrs with
  | [] => 0
  | a :: _ => length a
  end.

(** [_list_of_dict_to_arrays] followed by [arrays_to_mgr]. *)
Definition frame_of_dicts (pandas : ColumnConversion) (data : list (dict json))
  : DataFrame :=
  let cols := fast_unique_multiple_list_gen (map dict_keys data) in
  let arrs := dicts_to_arrays pandas data cols in
  {| columns := cols; index := extract_index arrs; arrays := arrs |}.

(** The records of a list all of whose items are objects. *)
Fixpoint as_dicts (items : list json) : option (list (dict json)) :=
  match items with
  | [] => Some []
  | JObj d :: rest => option_map (cons d) (as_dicts rest)
  | _ :: _ => None
  end.

(** [df.drop(columns=labels)]: a label that is no column is a [KeyError];
    the index is kept. *)
Definition drop (labels : list string) (df : DataFrame) : outcome DataFrame :=
  match find (fun l => negb (has_column l df)) labels with
  | Some l => Raise (KeyError l)
  | None =>
      let kept :=
        List.filter (fun ca => negb (existsb (String.eqb (fst ca)) labels))
               (combine (columns df) (arrays df)) in
      Return {| columns := map fst kept; index := index df; arrays := map snd kept |}
  end.

(** ** Subscripting, iteration and the language detector's types *)

(** [v[k]] for a string [k]: a [KeyError] on a dictionary without the key,
    a [TypeError] on every other JSON value. *)
Definition getitem (v : json) (k : string) : outcome json :=
  match v with
  | JObj d => from_option (KeyError k) (dict_get k d)
  | _ => Raise TypeError
  end.

(** [v.keys()] *)
Definition keys (v : json) : outcome (list string) :=
  match v with
  | JObj d => Return (dict_keys d)
  | _ => Raise (AttributeError "keys")
  end.

(** [for l in v]: the items of a list, the characters of a string, the keys
    of a dictionary; other values are not iterable. *)
Definition iter (v : json) : outcome (list json) :=
  match v with
  | JArr items => Return items
  | JStr s => Return (map JStr (chars s))
  | JObj d => Return (map JStr (dict_keys d))
  | _ => Raise TypeError
  end.

(** [[l for l in items if l.startswith(lang)]]: an item that is no string
    has no [startswith]. *)
Fixpoint select_startswith (lang : string) (items : list json)
  : outcome (list string) :=
  match items with
  | [] => Return []
  | JStr l :: rest =>
      outcome_map (fun ls => if startswith l lang then l :: ls else ls)
                  (select_startswith lang rest)
  | _ :: _ => Raise (AttributeError "startswith")
  end.

(** lingua's [IsoCode639_3] enum member and [Language]. *)
Record IsoCode639_3 : Type := MkIsoCode639_3 { name : string }.
Record Language : Type := MkLanguage { iso_code_639_3 : IsoCode639_3 }.

(** What the normaliser hands to the UI: a JSON value as it is, or a table. *)
Inductive display : Type :=
| DValue (v : json)
| DTable (t : DataFrame).

(** ** Static configuration *)

Definition LANG_2_FLORES : dict string :=
  [ ("Czech", "ces_Latn");
    ("Danish", "dan_Latn");
    ("Dutch", "nld_Latn");
    ("English", "eng_Latn");
    ("German", "deu_Latn");
    ("Hebrew", "heb_Hebr");
    ("Hungarian", "hun_Latn");
    ("Polish", "pol_Latn");
    ("Ukrainian", "ukr_Cyrl") ].

Definition SEMTAG : string := "https://semtag-api.dev.memorise.sdu.dk/semtag".
Definition NER : string := "https://semtag-api.dev.memorise.sdu.dk/ner".
Definition MT : string := "https://quest.ms.mff.cuni.cz/dimbu".

(** The world when the module has been loaded. *)
Definition initial_world (fs : gmap string string) : World :=
  {| lang_2_flores := LANG_2_FLORES; http_log := []; files := fs |}.

(** ** The program *)

Module MemoriseApiDemo.

Section Program.

(** The remote services: the body text of the reply to a request, given
    the requests issued before it, or the exception [requests] raises. *)
Variable send : list http_request -> http_request -> outcome string.

(** [json.loads], [None] standing for [JSONDecodeError]. *)
Variable json_loads : string -> option json.

(** [langdetector.detect_language_of]: a pure function of the text. *)
Variable detect_language_of : string -> option Language.

(** The column conversion of the pandas in use. *)
Variable pandas : ColumnConversion.

(** [pd.DataFrame.from_records] on data that is neither a scalar nor a
    sequence of records. *)
Variable from_records_other : json -> outcome DataFrame.

Local Open Scope py_scope.

Definition requests (r : http_request) : M string :=
  fun w => (send (http_log w) r, log_request r w).

Definition requests_get (url : string) : M string :=
  requests (HttpRequest GET url None).

Definition requests_post (url : string) (body : json) : M string :=
  requests (HttpRequest POST url (Some body)).

Definition loads (body : string) : M json :=
  lift_outcome (from_option JSONDecodeError (json_loads body)).

Definition classify (text : string) : M json :=
  response <- requests_post (SEMTAG ++ "/classify") (JObj [("text", JStr text)]) ;;
  loads response.

Definition ner (text : string) : M json :=
  response <- requests_post (NER ++ "/ner") (JObj [("text", JStr text)]) ;;
  loads response.

Definition get_supported_languages : M json :=
  response <- requests_get (MT ++ "/supported_languages") ;;
  loads response.

(** Reading the global [LANG_2_FLORES]. *)
Definition global_LANG_2_FLORES : M (dict string) :=
  fun w => (Return (lang_2_flores w), w).

Definition translate_body (text src_lang tgt_lang : string) : json :=
  JObj [("text", JStr text); ("src_lang", JStr src_lang); ("tgt_lang", JStr tgt_lang)].

Definition translate (text tgt_lang : string) : M json :=
  supported <- get_supported_languages ;;
  all_langs <- lift_outcome (getitem supported "supported_languages") ;;
  match detect_language_of text with
  | None => ret (JObj [("text", JStr "")])
  | Some _ =>
      language <- lift_outcome (from_option (AttributeError "iso_code_639_3")
                                            (detect_language_of text)) ;;
      let lang := lower (name (iso_code_639_3 language)) in
      items <- lift_outcome (iter all_langs) ;;
      matching <- lift_outcome (select_startswith lang items) ;;
      src_lang <- lift_outcome (from_option IndexError (head matching)) ;;
      table <- global_LANG_2_FLORES ;;
      tgt_code <- lift_outcome (from_option (KeyError tgt_lang) (dict_get tgt_lang table)) ;;
      response <- requests_post (MT ++ "/translate") (translate_body text src_lang tgt_code) ;;
      loads response
  end.

(** [pd.DataFrame.from_records(data)]: [len] fails on a scalar; an empty
    list gives the empty frame; a list of records is read as records.
    What happens to any other data, a list that mixes records with other
    items included, differs between versions of pandas and is left to the
    parameter. *)
Definition from_records (data : json) : outcome DataFrame :=
  match data with
  | JNull | JBool _ | JInt _ | JFloat _ => Raise TypeError
  | JArr [] => Return {| columns := []; index := 0; arrays := [] |}
  | JArr (JObj d :: rest) =>
      match as_dicts (JObj d :: rest) with
      | Some records => Return (frame_of_dicts pandas records)
      | None => from_records_other data
      end
  | _ => from_records_other data
  end.

(** Lines 55 to 60 of [request]: the response normaliser. *)
Definition normalize (response : json) : outcome display :=
  and_then (keys response) (fun ks =>
  if existsb (String.eqb "text") ks then
    outcome_map DValue (getitem response "text")
  else
  and_then (keys response) (fun ks' =>
  if existsb (String.eqb "detail") ks' then
    outcome_map DValue (getitem response "detail")
  else
  and_then (getitem response "results") (fun data =>
  and_then (from_records data) (fun results =>
  if has_column "score" results
  then outcome_map DTable (drop ["score"] results)
  else Return (DTable results))))).

Definition request {K : Type} (fn : K -> M json) (kwargs : K) : M display :=
  response <- fn kwargs ;;
  lift_outcome (normalize response).

Definition upload_file (file : string) : M string :=
  fun w =>
    match files w !! file with
    | None => (Raise FileNotFoundError, w)
    | Some raw =>
        match utf8_decode raw with
        | None => (Raise UnicodeDecodeError, w)
        | Some decoded => (Return (universal_newlines decoded), w)
        end
    end.

(** *** The UI shell *)

(** The values of the four components the events read and write. *)
Record UI : Type := MkUI {
  ui_text : string;
  ui_tgt_lang : string;
  ui_table_output : option display;
  ui_translate_output : option display
}.

Definition set_text (v : string) (ui : UI) : UI :=
  {| ui_text := v; ui_tgt_lang := ui_tgt_lang ui;
     ui_table_output := ui_table_output ui;
     ui_translate_output := ui_translate_output ui |}.

Definition set_table_output (v : display) (ui : UI) : UI :=
  {| ui_text := ui_text ui; ui_tgt_lang := ui_tgt_lang ui;
     ui_table_output := Some v;
     ui_translate_output := ui_translate_output ui |}.

Definition set_translate_output (v : display) (ui : UI) : UI :=
  {| ui_text := ui_text ui; ui_tgt_lang := ui_tgt_lang ui;
     ui_table_output := ui_table_output ui;
     ui_translate_output := Some v |}.

(** An event runs its function on the values of its inputs and writes the
    returned value into its output component. *)
Definition upload_button_upload (file : string) (ui : UI) : M UI :=
  v <- upload_file file ;; ret (set_text v ui).

Definition classify_button_click (ui : UI) : M UI :=
  v <- request classify (ui_text ui) ;; ret (set_table_output v ui).

Definition ner_button_click (ui : UI) : M UI :=
  v <- request ner (ui_text ui) ;; ret (set_table_output v ui).

Definition translate_button_click (ui : UI) : M UI :=
  v <- request (fun tl => translate (fst tl) (snd tl)) (ui_text ui, ui_tgt_lang ui) ;;
  ret (set_translate_output v ui).

End Program.

End MemoriseApiDemo.

Import MemoriseApiDemo.

(** ** Vocabulary of the statements *)

(** The two requests [translate] can issue. *)
Definition supported_request : http_request :=
  HttpRequest GET (MT ++ "/supported_languages") None.

Definition translate_request (text src_lang tgt_code : string) : http_request :=
  HttpRequest POST (MT ++ "/translate") (Some (translate_body text src_lang tgt_code)).

(** The POST requests of a log. *)
Definition posts (log : list http_request) : list http_request :=
  List.filter (fun r => match http_verb r with POST => true | GET => false end) log.

(** Whether a byte occurs in a string. *)
Fixpoint contains_byte (c : ascii) (s : string) : bool :=
  match s with
  | EmptyString => false
  | String c' r => Ascii.eqb c' c || contains_byte c r
  end.

(** Reading text with universal newlines, as the Python documentation puts
    it: the line endings CR LF and CR are translated into LF, and
    everything else is returned as it is. *)
Inductive line_endings_as_LF : string -> string -> Prop :=
| endings_empty :
    line_endings_as_LF EmptyString EmptyString
| endings_crlf (rest text : string) :
    line_endings_as_LF rest text ->
    line_endings_as_LF (String CR (String LF rest)) (String LF text)
| endings_cr_last :
    line_endings_as_LF (String CR EmptyString) (String LF EmptyString)
| endings_cr (c : ascii) (rest text : string) :
    c <> LF ->
    line_endings_as_LF (String c rest) text ->
    line_endings_as_LF (String CR (String c rest)) (String LF text)
| endings_other (c : ascii) (rest text : string) :
    c <> CR ->
    line_endings_as_LF rest text ->
    line_endings_as_LF (String c rest) (String c text).

(** A computation that leaves the global [LANG_2_FLORES] as it found it. *)
Definition keeps_globals {A} (m : M A) : Prop :=
  forall w, lang_2_flores (snd (m w)) = lang_2_flores w.

(** ** Test doubles

    A canned translation service, parser and detector, used to run the
    program on concrete inputs. *)

Definition ENGLISH : Language := MkLanguage (MkIsoCode639_3 "ENG").
Definition FRENCH : Language := MkLanguage (MkIsoCode639_3 "FRA").

Definition stub_supported : list string :=
  ["deu_Latn"; "eng_Latn"; "eng_Cyrl"; "ces_Latn"].

Definition stub_send (_ : list http_request) (r : http_request) : outcome string :=
  match http_verb r with
  | GET => Return "supported-body"
  | POST => Return "reply-body"
  end.

Definition stub_loads (body : string) : option json :=
  if String.eqb body "supported-body"
  then Some (JObj [("supported_languages", JArr (map JStr stub_supported))])
  else if String.eqb body "reply-body"
  then Some (JObj [("text", JStr "Hallo Welt")])
  else None.

Definition stub_detect (text : string) : option Language :=
  if String.eqb text "Hello world" then Some ENGLISH
  else if String.eqb text "Bonjour" then Some FRENCH
  else None.

Definition stub_other (_ : json) : outcome DataFrame := Raise TypeError.

(** A pandas that stores every cell as parsed. *)
Definition as_parsed : ColumnConversion :=
  {| convert_column := fun col => col;
     convert_length := fun col => eq_refl;
     convert_nan := fun col i H => H;
     convert_str := fun col i s H => H |}.

(** A service call that answers with a fixed response. *)
Definition answering (response : json) (_ : unit) : M json := ret response.

Definition sample_world : World :=
  initial_world {[ "/tmp/bonjour.txt" := "Bonjour" ]}.

Definition sample_ui : UI := MkUI "previous text" "German" None None.

(** Responses of each shape. *)
Definition text_fields : dict json :=
  [("detail", JStr "ignored"); ("text", JStr "Hallo Welt"); ("results", JArr [])].

Definition detail_fields : dict json :=
  [("detail", JStr "Language not supported"); ("results", JArr [])].

(** The record of the classification scenario; the score is the double
    nearest to 0.9. *)
Definition greeting_records : list (dict json) :=
  [[("term", JStr "greeting"); ("score", JFloat 0x1.ccccccccccccdp-1)]].

Definition results_fields (records : list (dict json)) : dict json :=
  [("results", JArr (map JObj records))].

Definition unknown_fields : dict json := [("message", JStr "accepted")].

Definition supported_response : json :=
  JObj [("supported_languages", JArr (map JStr stub_supported))].

(** ** Further vocabulary *)

(** [json.loads] results that are not containers: [len] and subscripting
    fail on them. *)
Definition is_scalar (v : json) : bool :=
  match v with
  | JNull | JBool _ | JInt _ | JFloat _ => true
  | _ => false
  end.

Definition is_dict (v : json) : bool :=
  match v with
  | JObj _ => true
  | _ => false
  end.

Definition is_str (v : json) : bool :=
  match v with
  | JStr _ => true
  | _ => false
  end.

(** Whether every byte of a string satisfies a test. *)
Fixpoint all_bytes (p : ascii -> bool) (s : string) : bool :=
  match s with
  | EmptyString => true
  | String c r => p c && all_bytes p r
  end.

(** The test [request] applies to a column label, and the table it builds
    from records: the keys that occur, without [score], over the index read
    from the records. *)
Definition score_free (c : string) : bool := negb (String.eqb c "score").

Definition records_table (pandas : ColumnConversion) (records : list (dict json))
  : DataFrame :=
  let cols :=
    List.filter score_free (fast_unique_multiple_list_gen (map dict_keys records)) in
  {| columns := cols;
     index := index (frame_of_dicts pandas records);
     arrays := dicts_to_arrays pandas records cols |}.

(** The byte values that occur in well-formed UTF-8: all but 0xC0, 0xC1
    and 0xF5 to 0xFF. *)
Definition utf8_byte (c : ascii) : bool :=
  negb (byte_in 192 193 c || byte_in 245 255 c).

(** The choices the target-language dropdown offers: [list(LANG_2_FLORES)]
    at the time the UI is built. *)
Definition tgt_lang_choices : list string := dict_keys LANG_2_FLORES.

(** The requests of the two extraction services. *)
Definition classify_request (text : string) : http_request :=
  HttpRequest POST (SEMTAG ++ "/classify") (Some (JObj [("text", JStr text)])).

Definition ner_request (text : string) : http_request :=
  HttpRequest POST (NER ++ "/ner") (Some (JObj [("text", JStr text)])).

(** More test doubles: a network that is down, an extraction service, and
    a translation service whose list of languages is malformed. *)
Definition down_send (_ : list http_request) (_ : http_request) : outcome string :=
  Raise RequestException.

Definition entity_records : list (dict json) :=
  [[("entity", JStr "Prague"); ("label", JStr "LOC"); ("score", JInt 1)];
   [("entity", JStr "Kafka"); ("label", JStr "PER"); ("score", JInt 1)]].

Definition extraction_send (_ : list http_request) (r : http_request) : outcome string :=
  if String.eqb (http_url r) (SEMTAG ++ "/classify") then Return "classify-body"
  else Return "ner-body".

Definition extraction_loads (body : string) : option json :=
  if String.eqb body "classify-body"
  then Some (JObj (results_fields greeting_records))
  else if String.eqb body "ner-body"
  then Some (JObj (results_fields entity_records))
  else None.

Definition null_loads (_ : string) : option json :=
  Some (JObj [("supported_languages", JNull)]).

Definition hello_ui : UI := MkUI "Hello world" "German" None None.

Definition blank_ui : UI := MkUI "%%%" "German" None None.

(** A file with a DOS line ending and one that starts with the byte-order
    mark of UTF-16. *)
Definition dos_bytes : string := "Bon" ++ String CR (String LF "jour").

Definition utf16_bytes : string :=
  String (ascii_of_N 255) (String (ascii_of_N 254) "B").

Definition uploads_world : World :=
  initial_world {[ "/tmp/bonjour.txt" := "Bonjour";
                   "/tmp/dos.txt" := dos_bytes;
                   "/tmp/utf16.txt" := utf16_bytes ]}.

Definition malformed_loads (_ : string) : option json :=
  Some (JObj [("supported_languages", JArr [JStr "eng_Latn"; JNull])]).

Definition keyless_loads (_ : string) : option json :=
  Some (JObj [("languages", JArr [])]).

(** * Properties *)

(** ** Dictionaries *)

Lemma dict_mem_get {V} (k : string) (d : dict V) :
  dict_mem k d = true <-> exists v, dict_get k d = Some v.
Proof.
  unfold dict_mem, dict_keys.
  induction d as [|[k' v'] d IH]; simpl.
  - split; [discriminate | intros [v Hv]; discriminate].
  - destruct (String.eqb k k'); simpl.
    + split; [eauto | reflexivity].
    + exact IH.
Qed.

Lemma dict_mem_false_get {V} (k : string) (d : dict V) :
  dict_mem k d = false <-> dict_get k d = None.
Proof.
  split; intros H.
  - destruct (dict_get k d) as [v|] eqn:E; [|reflexivity].
    assert (dict_mem k d = true) by (apply dict_mem_get; eauto). congruence.
  - destruct (dict_mem k d) eqn:E; [|reflexivity].
    apply dict_mem_get in E as [v Hv]. congruence.
Qed.

Lemma dict_get_mem {V} (k : string) (d : dict V) (v : V) :
  dict_get k d = Some v -> dict_mem k d = true.
Proof. intros H. apply dict_mem_get. eauto. Qed.

(** ** Tables *)

Lemma existsb_eqb_In (k : string) (l : list string) :
  existsb (String.eqb k) l = true <-> In k l.
Proof.
  rewrite existsb_exists. split.
  - intros [x [Hin Heq]]. apply String.eqb_eq in Heq. subst. exact Hin.
  - intros Hin. exists k. split; [exact Hin | apply String.eqb_refl].
Qed.

Lemma dict_mem_keys {V} (k : string) (d : dict V) :
  dict_mem k d = true <-> In k (dict_keys d).
Proof. apply existsb_eqb_In. Qed.

Lemma add_unique_In (uniques : list string) (val k : string) :
  In k (add_unique uniques val) <-> In k uniques \/ k = val.
Proof.
  unfold add_unique.
  destruct (existsb (String.eqb val) uniques) eqn:E.
  - apply existsb_eqb_In in E. split; [tauto | intros [H | ->]; assumption].
  - rewrite in_app_iff. simpl. intuition (subst; auto).
Qed.

Lemma fold_add_unique_In (buf uniques : list string) (k : string) :
  In k (fold_left add_unique buf uniques) <-> In k uniques \/ In k buf.
Proof.
  revert uniques. induction buf as [|val buf IH]; intros uniques; simpl.
  - tauto.
  - rewrite IH, add_unique_In. split; intros H; intuition (subst; auto).
Qed.

Lemma fold_buffers_In (gen : list (list string)) (uniques : list string) (k : string) :
  In k (fold_left (fun u buf => fold_left add_unique buf u) gen uniques) <->
  In k uniques \/ exists buf, In buf gen /\ In k buf.
Proof.
  revert uniques. induction gen as [|buf gen IH]; intros uniques; simpl.
  - split; [auto | intros [H | [buf [[] _]]]; exact H].
  - rewrite IH, fold_add_unique_In. split.
    + intros [[H | H] | [b [Hb Hk]]]; eauto.
    + intros [H | [b [[<- | Hb] Hk]]]; eauto.
Qed.

(** The columns of a frame read from records are the keys that occur. *)
Lemma fast_unique_multiple_list_gen_In (gen : list (list string)) (k : string) :
  In k (fast_unique_multiple_list_gen gen) <-> exists buf, In buf gen /\ In k buf.
Proof.
  unfold fast_unique_multiple_list_gen. rewrite fold_buffers_In.
  split; [intros [[] | H]; exact H | auto].
Qed.

Lemma frame_of_dicts_columns (pandas : ColumnConversion)
      (records : list (dict json)) (k : string) :
  In k (columns (frame_of_dicts pandas records)) <->
  exists r, In r records /\ dict_mem k r = true.
Proof.
  simpl. rewrite fast_unique_multiple_list_gen_In. split.
  - intros [buf [Hbuf Hk]]. apply in_map_iff in Hbuf as [r [<- Hr]].
    exists r. split; [exact Hr | apply dict_mem_keys; exact Hk].
  - intros [r [Hr Hk]]. exists (dict_keys r).
    split; [apply in_map; exact Hr | apply dict_mem_keys; exact Hk].
Qed.

Lemma frame_of_dicts_arrays (pandas : ColumnConversion) (records : list (dict json)) :
  Forall (fun a => length a = length records)
         (arrays (frame_of_dicts pandas records)) /\
  length (arrays (frame_of_dicts pandas records)) =
  length (columns (frame_of_dicts pandas records)).
Proof.
  simpl. unfold dicts_to_arrays. split.
  - apply List.Forall_forall. intros a Ha.
    apply in_map_iff in Ha as [c [<- _]].
    rewrite convert_length. apply length_map.
  - apply length_map.
Qed.

(** With at least one key among the records there is a column array, and
    the inferred index has one position per record. *)
Lemma frame_of_dicts_index (pandas : ColumnConversion) (records : list (dict json)) :
  (exists r, In r records /\ r <> []) ->
  index (frame_of_dicts pandas records) = length records.
Proof.
  intros [r [Hr Hne]]. simpl.
  destruct (fast_unique_multiple_list_gen (map dict_keys records)) as [|c cols] eqn:E.
  - exfalso. destruct r as [|[k v] r]; [congruence|].
    assert (Hk : In k (fast_unique_multiple_list_gen (map dict_keys records))).
    { apply fast_unique_multiple_list_gen_In. exists (dict_keys ((k, v) :: r)).
      split; [apply in_map; exact Hr | left; reflexivity]. }
    rewrite E in Hk. exact Hk.
  - simpl. rewrite convert_length. apply length_map.
Qed.

Lemma as_dicts_map (records : list (dict json)) :
  as_dicts (map JObj records) = Some records.
Proof.
  induction records as [|r records IH]; simpl; [reflexivity|].
  rewrite IH. reflexivity.
Qed.

Lemma combine_filter_fst {A B} (p : A -> bool) (l : list A) (l' : list B) :
  length l = length l' ->
  map fst (List.filter (fun ab => p (fst ab)) (combine l l')) = List.filter p l.
Proof.
  revert l'. induction l as [|a l IH]; intros [|b l'] Hlen; simpl in *;
    try discriminate; [reflexivity|].
  destruct (p a); simpl; rewrite IH by lia; reflexivity.
Qed.

Lemma combine_filter_snd {A B} (p : A -> bool) (l : list A) (l' : list B) (b : B) :
  In b (map snd (List.filter (fun ab => p (fst ab)) (combine l l'))) -> In b l'.
Proof.
  intros H. apply in_map_iff in H as [[a b'] [<- Hin]].
  apply List.filter_In in Hin as [Hin _]. apply in_combine_r in Hin. exact Hin.
Qed.

(** Dropping a column that is there removes exactly that label and keeps
    the index. *)
Lemma drop_present (label : string) (df : DataFrame) :
  has_column label df = true ->
  length (columns df) = length (arrays df) ->
  exists t,
    drop [label] df = Return t /\
    columns t = List.filter (fun c => negb (String.eqb c label)) (columns df) /\
    index t = index df /\
    (forall a, In a (arrays t) -> In a (arrays df)).
Proof.
  intros Hcol Hlen. unfold drop. cbn [find]. rewrite Hcol. cbn [negb].
  eexists. split; [reflexivity|]. cbn [columns index arrays]. repeat split.
  - rewrite (combine_filter_fst (fun c => negb (existsb (String.eqb c) [label]))) by exact Hlen.
    apply List.filter_ext. intros c. simpl. rewrite orb_false_r. reflexivity.
  - intros a. apply (combine_filter_snd (fun c => negb (existsb (String.eqb c) [label]))).
Qed.

(** ** The monad and the global table *)

Create HintDb globals discriminated.

Lemma keeps_ret {A} (a : A) : keeps_globals (ret a).
Proof. intros w. reflexivity. Qed.

Lemma keeps_raise {A} (e : exn) : keeps_globals (@raise A e).
Proof. intros w. reflexivity. Qed.

Lemma keeps_lift_outcome {A} (o : outcome A) : keeps_globals (lift_outcome o).
Proof. intros w. reflexivity. Qed.

Lemma keeps_bind {A B} (m : M A) (k : A -> M B) :
  keeps_globals m -> (forall a, keeps_globals (k a)) -> keeps_globals (bind m k).
Proof.
  intros Hm Hk w. unfold bind. specialize (Hm w).
  destruct (m w) as [[a | e] w1]; simpl in *.
  - rewrite Hk. exact Hm.
  - exact Hm.
Qed.

#[global] Hint Resolve keeps_ret keeps_raise keeps_lift_outcome : globals.
#[global] Hint Extern 2 (keeps_globals (bind _ _)) =>
  apply keeps_bind; [|intro] : globals.

(** ** Text *)

Lemma universal_newlines_without_CR (s : string) :
  contains_byte CR s = false -> universal_newlines s = s.
Proof.
  induction s as [|c r IH]; [reflexivity|].
  cbn [contains_byte universal_newlines]. intros H.
  apply orb_false_iff in H as [Hc Hr]. rewrite Hc, (IH Hr). reflexivity.
Qed.

Lemma universal_newlines_cons (c : ascii) (r : string) :
  Ascii.eqb c CR = false ->
  universal_newlines (String c r) = String c (universal_newlines r).
Proof. intros H. cbn [universal_newlines]. rewrite H. reflexivity. Qed.

(** [universal_newlines] translates the line endings, and what it returns
    is the only translation there is. *)
Lemma universal_newlines_translates (n : nat) (s : string) :
  String.length s <= n -> line_endings_as_LF s (universal_newlines s).
Proof.
  revert s. induction n as [|n IH]; intros s Hlen;
    (destruct s as [|c r]; [constructor|]); cbn [String.length] in Hlen; [lia|].
  destruct (Ascii.eqb c CR) eqn:Ec.
  - apply Ascii.eqb_eq in Ec. subst c. cbn [universal_newlines].
    rewrite Ascii.eqb_refl.
    destruct r as [|c' r']; [constructor|]. cbn [String.length] in Hlen.
    destruct (Ascii.eqb c' LF) eqn:Elf.
    + apply Ascii.eqb_eq in Elf. subst c'. constructor. apply IH. lia.
    + apply Ascii.eqb_neq in Elf. apply endings_cr; [exact Elf|].
      apply IH. cbn [String.length]. lia.
  - rewrite (universal_newlines_cons _ _ Ec). apply Ascii.eqb_neq in Ec.
    apply endings_other; [exact Ec|]. apply IH. lia.
Qed.

Lemma line_endings_as_LF_unique (s text : string) :
  line_endings_as_LF s text -> text = universal_newlines s.
Proof.
  intros H. induction H as [|rest text _ IH| |c rest text Hc _ IH|c rest text Hc _ IH].
  - reflexivity.
  - cbn [universal_newlines]. rewrite !Ascii.eqb_refl, IH. reflexivity.
  - reflexivity.
  - apply Ascii.eqb_neq in Hc.
    change (universal_newlines (String CR (String c rest)))
      with (if Ascii.eqb c LF then String LF (universal_newlines rest)
            else String LF (universal_newlines (String c rest))).
    rewrite Hc, IH. reflexivity.
  - apply Ascii.eqb_neq in Hc. rewrite (universal_newlines_cons _ _ Hc), IH.
    reflexivity.
Qed.

(** ** Selecting the source language *)

Lemma select_startswith_strings (lang : string) (ls : list string) :
  select_startswith lang (map JStr ls) =
  Return (List.filter (fun l => startswith l lang) ls).
Proof.
  induction ls as [|l ls IH]; [reflexivity|].
  cbn [map select_startswith List.filter]. rewrite IH.
  unfold outcome_map, and_then. destruct (startswith l lang); reflexivity.
Qed.

Lemma filter_first_match {A} (p : A -> bool) (before after : list A) (x : A) :
  Forall (fun y => p y = false) before ->
  p x = true ->
  head (List.filter p (before ++ x :: after)) = Some x.
Proof.
  intros Hbefore Hx. induction Hbefore as [|y before Hy _ IH]; simpl.
  - rewrite Hx. reflexivity.
  - rewrite Hy. exact IH.
Qed.

Lemma filter_no_match {A} (p : A -> bool) (l : list A) :
  Forall (fun y => p y = false) l -> List.filter p l = [].
Proof.
  intros H. induction H as [|y l Hy _ IH]; simpl; [reflexivity|].
  rewrite Hy. exact IH.
Qed.

Section Properties.

Variable send : list http_request -> http_request -> outcome string.
Variable json_loads : string -> option json.
Variable detect_language_of : string -> option Language.
Variable pandas : ColumnConversion.
Variable from_records_other : json -> outcome DataFrame.

#[local] Abbreviation normalize := (normalize pandas from_records_other).
#[local] Abbreviation request := (request pandas from_records_other).
#[local] Abbreviation translate := (translate send json_loads detect_language_of).
#[local] Abbreviation get_supported_languages := (get_supported_languages send json_loads).

(** ** The normaliser, branch by branch *)

(** Unfold the dispatch of [normalize] on a dictionary and name its two
    membership tests. *)
Ltac open_normalize fields :=
  unfold MemoriseApiDemo.normalize, keys, and_then, getitem;
  change (existsb (String.eqb "text") (dict_keys fields))
    with (dict_mem "text" fields);
  change (existsb (String.eqb "detail") (dict_keys fields))
    with (dict_mem "detail" fields).

Lemma normalize_text (fields : dict json) (v : json) :
  dict_get "text" fields = Some v ->
  normalize (JObj fields) = Return (DValue v).
Proof.
  intros Hget. open_normalize fields.
  rewrite (dict_get_mem _ _ _ Hget), Hget. reflexivity.
Qed.

Lemma normalize_detail (fields : dict json) (v : json) :
  dict_mem "text" fields = false ->
  dict_get "detail" fields = Some v ->
  normalize (JObj fields) = Return (DValue v).
Proof.
  intros Htext Hget. open_normalize fields.
  rewrite Htext, (dict_get_mem _ _ _ Hget), Hget. reflexivity.
Qed.

Lemma normalize_results (fields : dict json) :
  dict_mem "text" fields = false ->
  dict_mem "detail" fields = false ->
  normalize (JObj fields) =
    and_then (from_option (KeyError "results") (dict_get "results" fields)) (fun data =>
    and_then (from_records pandas from_records_other data) (fun results =>
    if has_column "score" results
    then outcome_map DTable (drop ["score"] results)
    else Return (DTable results))).
Proof.
  intros Htext Hdetail. open_normalize fields.
  rewrite Htext, Hdetail. reflexivity.
Qed.

(** [request] is the service call followed by the pure normaliser. *)
Lemma request_after {K : Type} (fn : K -> M json) (kwargs : K)
      (w w' : World) (response : json) :
  fn kwargs w = (Return response, w') ->
  request fn kwargs w = (normalize response, w').
Proof.
  intros Hfn. unfold MemoriseApiDemo.request, bind. rewrite Hfn. reflexivity.
Qed.

(** C1: whenever the response dictionary has a [text] key, [request]
    returns the value stored under that key, unchanged and without
    touching the world, whatever other keys ([detail], [results], ...)
    the dictionary holds; a string stays that string. *)
Theorem request_text_verbatim {K : Type} (fn : K -> M json) (kwargs : K)
        (w w' : World) (fields : dict json) :
  fn kwargs w = (Return (JObj fields), w') ->
  dict_mem "text" fields = true ->
  exists v : json,
    dict_get "text" fields = Some v /\
    request fn kwargs w = (Return (DValue v), w') /\
    (forall s : string, v = JStr s ->
       request fn kwargs w = (Return (DValue (JStr s)), w')).
Proof.
  intros Hfn Hmem.
  apply dict_mem_get in Hmem as [v Hv].
  exists v. split; [exact Hv|].
  assert (Hreq : request fn kwargs w = (Return (DValue v), w')).
  { rewrite (request_after _ _ _ _ _ Hfn), (normalize_text _ _ Hv). reflexivity. }
  split; [exact Hreq|]. intros s ->. exact Hreq.
Qed.

(** C5: whenever the response dictionary has a [detail] key and no [text]
    key, [request] returns the value stored under [detail], unchanged; the
    result has the very shape of a translation: it equals what [request]
    returns for the response [{"text": v}]. *)
Theorem request_detail_verbatim {K : Type} (fn : K -> M json) (kwargs : K)
        (w w' : World) (fields : dict json) :
  fn kwargs w = (Return (JObj fields), w') ->
  dict_mem "text" fields = false ->
  dict_mem "detail" fields = true ->
  exists v : json,
    dict_get "detail" fields = Some v /\
    request fn kwargs w = (Return (DValue v), w') /\
    request fn kwargs w = request (answering (JObj [("text", v)])) tt w'.
Proof.
  intros Hfn Htext Hmem.
  apply dict_mem_get in Hmem as [v Hv].
  exists v. split; [exact Hv|].
  rewrite (request_after _ _ _ _ _ Hfn), (normalize_detail _ _ Htext Hv).
  split; reflexivity.
Qed.

(** C10: whenever the response dictionary has none of the keys [text],
    [detail] and [results], [request] raises [KeyError] for [results]; it
    returns no value. *)
Theorem request_without_known_key {K : Type} (fn : K -> M json) (kwargs : K)
        (w w' : World) (fields : dict json) :
  fn kwargs w = (Return (JObj fields), w') ->
  dict_mem "text" fields = false ->
  dict_mem "detail" fields = false ->
  dict_mem "results" fields = false ->
  request fn kwargs w = (Raise (KeyError "results"), w') /\
  (forall d : display, fst (request fn kwargs w) <> Return d).
Proof.
  intros Hfn Htext Hdetail Hresults.
  assert (Hreq : request fn kwargs w = (Raise (KeyError "results"), w')).
  { rewrite (request_after _ _ _ _ _ Hfn), (normalize_results _ Htext Hdetail).
    apply dict_mem_false_get in Hresults. rewrite Hresults. reflexivity. }
  split; [exact Hreq|]. intros d. rewrite Hreq. simpl. discriminate.
Qed.

(** C6: normalisation is a function of the response alone and has no
    state: two runs of [request] whose service calls produced the same
    response, from whatever worlds and through whatever calls, yield the
    same output, and the normalising step leaves the world as the service
    call left it. *)
Theorem request_deterministic_stateless
        {K1 K2 : Type} (fn1 : K1 -> M json) (fn2 : K2 -> M json)
        (kwargs1 : K1) (kwargs2 : K2)
        (w1 w1' w2 w2' : World) (response : json) :
  fn1 kwargs1 w1 = (Return response, w1') ->
  fn2 kwargs2 w2 = (Return response, w2') ->
  fst (request fn1 kwargs1 w1) = fst (request fn2 kwargs2 w2) /\
  fst (request fn1 kwargs1 w1) = normalize response /\
  snd (request fn1 kwargs1 w1) = w1' /\
  snd (request fn2 kwargs2 w2) = w2'.
Proof.
  intros H1 H2.
  rewrite (request_after _ _ _ _ _ H1), (request_after _ _ _ _ _ H2).
  repeat split.
Qed.

(** ** Tables from records *)

Lemma from_records_of_records (records : list (dict json)) :
  from_records pandas from_records_other (JArr (map JObj records)) =
  Return (frame_of_dicts pandas records).
Proof.
  destruct records as [|r records]; [reflexivity|].
  unfold from_records. cbn [map].
  change (JObj r :: map JObj records) with (map JObj (r :: records)).
  rewrite as_dicts_map. reflexivity.
Qed.

Lemma filter_score_free (cols : list string) :
  existsb (String.eqb "score")
          (List.filter (fun c => negb (String.eqb c "score")) cols) = false.
Proof.
  destruct (existsb _ _) eqn:E; [|reflexivity].
  apply existsb_eqb_In, List.filter_In in E as [_ E].
  rewrite String.eqb_refl in E. discriminate.
Qed.

(** C2, as the code has it: when the response dictionary has neither
    [text] nor [detail] and its [results] is a sequence of records,
    [request] returns a table that never has a [score] column, whose
    columns are the other keys occurring in the records, whose column
    arrays hold one cell per record, and which has exactly one row per
    record provided some record has at least one key; records that have
    no key at all give a table with no row. *)
Theorem request_results_table {K : Type} (fn : K -> M json) (kwargs : K)
        (w w' : World) (fields : dict json) (records : list (dict json)) :
  fn kwargs w = (Return (JObj fields), w') ->
  dict_mem "text" fields = false ->
  dict_mem "detail" fields = false ->
  dict_get "results" fields = Some (JArr (map JObj records)) ->
  exists t : DataFrame,
    request fn kwargs w = (Return (DTable t), w') /\
    has_column "score" t = false /\
    (forall k, In k (columns t) <->
               k <> "score" /\ exists r, In r records /\ dict_mem k r = true) /\
    Forall (fun a => length a = length records) (arrays t) /\
    ((exists r, In r records /\ r <> []) -> nrows t = length records) /\
    (Forall (fun r => r = []) records -> nrows t = 0).
Proof.
  intros Hfn Htext Hdetail Hget.
  rewrite (request_after _ _ _ _ _ Hfn), (normalize_results _ Htext Hdetail), Hget.
  cbn [from_option and_then]. rewrite from_records_of_records. cbn [and_then].
  destruct (frame_of_dicts_arrays pandas records) as [Hcells Hlen].
  assert (Hkeyless : Forall (fun r => r = []) records ->
                     index (frame_of_dicts pandas records) = 0).
  { intros Hall. cbn [frame_of_dicts index].
    destruct (fast_unique_multiple_list_gen (map dict_keys records)) as [|c cols] eqn:E;
      [reflexivity|].
    exfalso.
    assert (Hc : In c (fast_unique_multiple_list_gen (map dict_keys records)))
      by (rewrite E; left; reflexivity).
    apply fast_unique_multiple_list_gen_In in Hc as [buf [Hbuf Hc]].
    apply in_map_iff in Hbuf as [r [<- Hr]].
    rewrite (proj1 (List.Forall_forall _ _) Hall r Hr) in Hc. exact Hc. }
  destruct (has_column "score" (frame_of_dicts pandas records)) eqn:Escore.
  - destruct (drop_present "score" _ Escore (eq_sym Hlen)) as [t [Hdrop [Hcols [Hidx Harr]]]].
    rewrite Hdrop. exists t. split; [reflexivity|].
    split; [unfold has_column; rewrite Hcols; apply filter_score_free|].
    split; [intros k; rewrite Hcols, List.filter_In; split|split; [|split]].
    + intros [Hin Hk]. split.
      * intros ->. rewrite String.eqb_refl in Hk. discriminate.
      * apply (frame_of_dicts_columns pandas). exact Hin.
    + intros [Hne Hex]. split.
      * apply (frame_of_dicts_columns pandas). exact Hex.
      * apply negb_true_iff, String.eqb_neq. exact Hne.
    + apply List.Forall_forall. intros a Ha.
      apply (proj1 (List.Forall_forall _ _) Hcells), Harr, Ha.
    + intros Hex. unfold nrows. rewrite Hidx. apply frame_of_dicts_index, Hex.
    + intros Hall. unfold nrows. rewrite Hidx. apply Hkeyless, Hall.
  - exists (frame_of_dicts pandas records). split; [reflexivity|].
    split; [exact Escore|].
    split; [intros k; split|split; [|split]].
    + intros Hin. split.
      * intros ->. apply existsb_eqb_In in Hin.
        unfold has_column in Escore. congruence.
      * apply (frame_of_dicts_columns pandas). exact Hin.
    + intros [_ Hex]. apply (frame_of_dicts_columns pandas). exact Hex.
    + exact Hcells.
    + intros Hex. apply frame_of_dicts_index, Hex.
    + intros Hall. apply Hkeyless, Hall.
Qed.

(** ** Translation *)

Lemma get_supported_languages_run (w : World) (o : outcome json) :
  fst (get_supported_languages w) = o ->
  get_supported_languages w = (o, log_request supported_request w).
Proof.
  intros <-. unfold MemoriseApiDemo.get_supported_languages, bind,
    requests_get, requests, loads, lift_outcome.
  fold supported_request.
  destruct (send (http_log w) supported_request); reflexivity.
Qed.

(** The steps of [translate] up to the detector, once the list of
    supported languages has been fetched. *)
Ltac after_fetch Hfetch Hitem :=
  unfold MemoriseApiDemo.translate; unfold bind at 1;
  rewrite (get_supported_languages_run _ _ Hfetch);
  unfold bind at 1, lift_outcome at 1; rewrite Hitem.

(** C9: when the supported languages are fetched as a list of codes,
    detection succeeds, and the lowercased ISO 639-3 code is a prefix of
    none of the codes, [translate] raises [IndexError] (the [[0]] on the
    empty filtered list): it returns no value and issues no POST. *)
Theorem translate_no_match_index_error
        (text tgt_lang : string) (w : World) (supported : json)
        (all_langs : list string) (language : Language) :
  fst (get_supported_languages w) = Return supported ->
  getitem supported "supported_languages" = Return (JArr (map JStr all_langs)) ->
  detect_language_of text = Some language ->
  Forall (fun l => startswith l (lower (name (iso_code_639_3 language))) = false)
         all_langs ->
  translate text tgt_lang w = (Raise IndexError, log_request supported_request w).
Proof.
  intros Hfetch Hitem Hdetect Hnone.
  after_fetch Hfetch Hitem. rewrite Hdetect.
  unfold bind, lift_outcome. cbn [from_option iter].
  rewrite select_startswith_strings, (filter_no_match _ _ Hnone).
  reflexivity.
Qed.

(** C3: when the supported languages are fetched as a list of codes and
    detection succeeds with a language whose ISO 639-3 name lowercases to
    [c], [translate] posts as [src_lang] the first code of the list, in
    list order, that starts with [c]; with it goes the table's code for
    the target name, and the reply of that POST is what [translate]
    returns.  In particular a text detected as English with target
    "German" is posted with the first code starting with "eng" and with
    "deu_Latn". *)
Theorem translate_source_first_match
        (text : string) (w : World) (supported : json)
        (before after : list string) (src_lang : string) (language : Language) :
  fst (get_supported_languages w) = Return supported ->
  getitem supported "supported_languages" =
    Return (JArr (map JStr (before ++ src_lang :: after))) ->
  detect_language_of text = Some language ->
  Forall (fun l => startswith l (lower (name (iso_code_639_3 language))) = false)
         before ->
  startswith src_lang (lower (name (iso_code_639_3 language))) = true ->
  (forall tgt_lang tgt_code : string,
     dict_get tgt_lang (lang_2_flores w) = Some tgt_code ->
     translate text tgt_lang w =
       (and_then (send (http_log w ++ [supported_request])
                       (translate_request text src_lang tgt_code))
                 (fun body => from_option JSONDecodeError (json_loads body)),
        log_request (translate_request text src_lang tgt_code)
                    (log_request supported_request w))) /\
  (name (iso_code_639_3 language) = "ENG" ->
   lang_2_flores w = LANG_2_FLORES ->
   startswith src_lang "eng" = true /\
   Forall (fun l => startswith l "eng" = false) before /\
   http_log (snd (translate text "German" w)) =
     http_log w ++ [supported_request; translate_request text src_lang "deu_Latn"]).
Proof.
  intros Hfetch Hitem Hdetect Hbefore Hsrc.
  assert (Hgen : forall tgt_lang tgt_code : string,
     dict_get tgt_lang (lang_2_flores w) = Some tgt_code ->
     translate text tgt_lang w =
       (and_then (send (http_log w ++ [supported_request])
                       (translate_request text src_lang tgt_code))
                 (fun body => from_option JSONDecodeError (json_loads body)),
        log_request (translate_request text src_lang tgt_code)
                    (log_request supported_request w))).
  { intros tgt_lang tgt_code Htgt.
    after_fetch Hfetch Hitem. rewrite Hdetect.
    unfold bind, lift_outcome. cbn [from_option iter].
    rewrite select_startswith_strings, (filter_first_match _ _ _ _ Hbefore Hsrc).
    cbn [from_option global_LANG_2_FLORES log_request lang_2_flores].
    rewrite Htgt. cbn [from_option].
    unfold requests_post, requests, loads, lift_outcome.
    fold (translate_request text src_lang tgt_code).
    cbn [http_log log_request].
    destruct (send _ _); reflexivity. }
  split; [exact Hgen|].
  intros Hname Htable. rewrite Hname in Hsrc, Hbefore.
  split; [exact Hsrc|]. split; [exact Hbefore|].
  rewrite (Hgen "German" "deu_Latn") by (rewrite Htable; reflexivity).
  cbn [snd log_request http_log]. rewrite <- app_assoc. reflexivity.
Qed.

(** C4, as the code has it: when detection yields no language,
    [translate] issues the GET for the supported languages and nothing
    else, so no POST reaches the translation endpoint; it returns exactly
    [{"text": ""}] when that list has been fetched, and raises the error of
    the fetch otherwise, the list being fetched before the detector is
    asked. *)
Theorem translate_undetected (text tgt_lang : string) (w : World) :
  detect_language_of text = None ->
  http_log (snd (translate text tgt_lang w)) = http_log w ++ [supported_request] /\
  posts (http_log (snd (translate text tgt_lang w))) = posts (http_log w) /\
  (forall supported all_langs : json,
     fst (get_supported_languages w) = Return supported ->
     getitem supported "supported_languages" = Return all_langs ->
     translate text tgt_lang w =
       (Return (JObj [("text", JStr "")]), log_request supported_request w)) /\
  (forall e : exn,
     fst (get_supported_languages w) = Raise e ->
     translate text tgt_lang w = (Raise e, log_request supported_request w)) /\
  (forall (supported : json) (e : exn),
     fst (get_supported_languages w) = Return supported ->
     getitem supported "supported_languages" = Raise e ->
     translate text tgt_lang w = (Raise e, log_request supported_request w)).
Proof.
  intros Hdetect.
  assert (Hlog : http_log (snd (translate text tgt_lang w)) =
                 http_log w ++ [supported_request]).
  { unfold MemoriseApiDemo.translate. unfold bind at 1.
    rewrite (get_supported_languages_run w _ eq_refl).
    destruct (fst (get_supported_languages w)) as [supported | e]; [|reflexivity].
    unfold bind at 1, lift_outcome at 1.
    destruct (getitem supported "supported_languages") as [all_langs | e];
      [|reflexivity].
    rewrite Hdetect. reflexivity. }
  split; [exact Hlog|]. split; [|split; [|split]].
  - rewrite Hlog. unfold posts. rewrite List.filter_app. simpl.
    apply app_nil_r.
  - intros supported all_langs Hfetch Hitem.
    after_fetch Hfetch Hitem. rewrite Hdetect. reflexivity.
  - intros e Hfetch. unfold MemoriseApiDemo.translate. unfold bind at 1.
    rewrite (get_supported_languages_run _ _ Hfetch). reflexivity.
  - intros supported e Hfetch Hitem. after_fetch Hfetch Hitem. reflexivity.
Qed.

(** ** The upload handler *)

(** C7, as the code has it: for a file whose bytes are well-formed UTF-8,
    [upload_file] returns the whole content decoded as UTF-8 with its line
    endings translated: CR LF and CR are read as LF and nothing else is
    changed, so a content without carriage return comes back as it is; the
    upload event makes that value the content of the text box whatever the
    box held before, and changes nothing else. *)
Theorem upload_replaces_text (file raw : string) (ui : UI) (w : World) :
  files w !! file = Some raw ->
  utf8_valid raw = true ->
  exists text : string,
    upload_file file w = (Return text, w) /\
    line_endings_as_LF raw text /\
    (forall text' : string, line_endings_as_LF raw text' -> text' = text) /\
    (contains_byte CR raw = false -> text = raw) /\
    (exists ui' : UI,
       upload_button_upload file ui w = (Return ui', w) /\
       ui_text ui' = text /\
       ui_tgt_lang ui' = ui_tgt_lang ui /\
       ui_table_output ui' = ui_table_output ui /\
       ui_translate_output ui' = ui_translate_output ui).
Proof.
  intros Hfile Hvalid. exists (universal_newlines raw).
  assert (Hread : upload_file file w = (Return (universal_newlines raw), w)).
  { unfold upload_file, utf8_decode. rewrite Hfile, Hvalid. reflexivity. }
  split; [exact Hread|]. split; [|split; [|split]].
  - apply (universal_newlines_translates (String.length raw)). apply le_n.
  - apply line_endings_as_LF_unique.
  - apply universal_newlines_without_CR.
  - exists (set_text (universal_newlines raw) ui).
    unfold upload_button_upload, bind. rewrite Hread.
    split; [reflexivity|]. split; [reflexivity|].
    split; [reflexivity|]. split; reflexivity.
Qed.

(** ** The language table *)

Lemma keeps_requests (r : http_request) : keeps_globals (requests send r).
Proof. intros w. reflexivity. Qed.

Lemma keeps_global_LANG_2_FLORES : keeps_globals global_LANG_2_FLORES.
Proof. intros w. reflexivity. Qed.

Lemma keeps_upload_file (file : string) : keeps_globals (upload_file file).
Proof.
  intros w. unfold upload_file.
  destruct (files w !! file) as [raw|]; [|reflexivity].
  destruct (utf8_decode raw); reflexivity.
Qed.

Hint Resolve keeps_requests keeps_global_LANG_2_FLORES keeps_upload_file : globals.

Ltac keeps :=
  unfold requests_get, requests_post, loads; auto 12 with globals.

Lemma keeps_classify (text : string) : keeps_globals (classify send json_loads text).
Proof. unfold classify. keeps. Qed.

Lemma keeps_ner (text : string) : keeps_globals (ner send json_loads text).
Proof. unfold ner. keeps. Qed.

Lemma keeps_get_supported_languages : keeps_globals get_supported_languages.
Proof. unfold MemoriseApiDemo.get_supported_languages. keeps. Qed.

Lemma keeps_translate (text tgt_lang : string) :
  keeps_globals (translate text tgt_lang).
Proof.
  pose proof keeps_get_supported_languages.
  unfold MemoriseApiDemo.translate.
  apply keeps_bind; [assumption | intros supported].
  apply keeps_bind; [keeps | intros all_langs].
  destruct (detect_language_of text); keeps.
Qed.

Lemma keeps_request {K : Type} (fn : K -> M json) (kwargs : K) :
  keeps_globals (fn kwargs) -> keeps_globals (request fn kwargs).
Proof. intros Hfn. unfold MemoriseApiDemo.request. keeps. Qed.

(** Every run of [translate] issues the GET and then at most one POST,
    whose target code is the table's entry for the selected name. *)
Lemma translate_requests (text tgt_lang : string) (w : World) :
  exists issued : list http_request,
    http_log (snd (translate text tgt_lang w)) = http_log w ++ issued /\
    (issued = [supported_request] \/
     exists src_lang tgt_code : string,
       dict_get tgt_lang (lang_2_flores w) = Some tgt_code /\
       issued = [supported_request; translate_request text src_lang tgt_code]).
Proof.
  assert (Hget : exists issued, issued = [supported_request] /\
            http_log (log_request supported_request w) = http_log w ++ issued)
    by (eexists; split; reflexivity).
  destruct Hget as [only_get [Hissued Hlog]].
  unfold MemoriseApiDemo.translate. unfold bind at 1.
  rewrite (get_supported_languages_run w _ eq_refl).
  destruct (fst (get_supported_languages w)) as [supported | e]; [|eauto].
  unfold bind at 1, lift_outcome at 1.
  destruct (getitem supported "supported_languages") as [all_langs | e]; [|eauto].
  destruct (detect_language_of text) as [language|]; [|eauto].
  unfold bind, lift_outcome. cbn [from_option].
  destruct (iter all_langs) as [items | e]; [|eauto].
  destruct (select_startswith _ items) as [matching | e]; [|eauto].
  destruct (head matching) as [src_lang|]; [|eauto].
  cbn [from_option global_LANG_2_FLORES log_request lang_2_flores].
  destruct (dict_get tgt_lang (lang_2_flores w)) as [tgt_code|] eqn:Htgt; [|eauto].
  exists [supported_request; translate_request text src_lang tgt_code].
  split; [|right; eauto].
  cbn [from_option]. unfold requests_post, requests, loads, lift_outcome.
  fold (translate_request text src_lang tgt_code).
  cbn [http_log log_request].
  destruct (send _ _) as [body | e]; cbn [snd log_request http_log];
    rewrite <- app_assoc; reflexivity.
Qed.

(** Once a source language has been selected, what [translate] does is
    decided by the entry of the global table for the target name. *)
Lemma translate_target_lookup (text tgt_lang : string) (w : World) (supported : json)
      (before after : list string) (src_lang : string) (language : Language) :
  fst (get_supported_languages w) = Return supported ->
  getitem supported "supported_languages" =
    Return (JArr (map JStr (before ++ src_lang :: after))) ->
  detect_language_of text = Some language ->
  Forall (fun l => startswith l (lower (name (iso_code_639_3 language))) = false)
         before ->
  startswith src_lang (lower (name (iso_code_639_3 language))) = true ->
  translate text tgt_lang w =
    match dict_get tgt_lang (lang_2_flores w) with
    | Some tgt_code =>
        (and_then (send (http_log w ++ [supported_request])
                        (translate_request text src_lang tgt_code))
                  (fun body => from_option JSONDecodeError (json_loads body)),
         log_request (translate_request text src_lang tgt_code)
                     (log_request supported_request w))
    | None => (Raise (KeyError tgt_lang), log_request supported_request w)
    end.
Proof.
  intros Hfetch Hitem Hdetect Hbefore Hsrc.
  after_fetch Hfetch Hitem. rewrite Hdetect.
  unfold bind, lift_outcome. cbn [from_option iter].
  rewrite select_startswith_strings, (filter_first_match _ _ _ _ Hbefore Hsrc).
  cbn [from_option global_LANG_2_FLORES log_request lang_2_flores].
  destruct (dict_get tgt_lang (lang_2_flores w)) as [tgt_code|]; [|reflexivity].
  cbn [from_option].
  unfold requests_post, requests, loads, lift_outcome.
  fold (translate_request text src_lang tgt_code).
  cbn [http_log log_request].
  destruct (send _ _); reflexivity.
Qed.

(** C8: the table [LANG_2_FLORES] has exactly nine entries with distinct
    names, among them "English" for "eng_Latn"; it is the table of the
    freshly loaded module; no operation of the program (the service
    calls, [translate], [request], [upload_file], the four UI events)
    changes it; and [translate] resolves the target code by looking the
    selected name up in it: once a source language has been selected, the
    POST carries as [tgt_lang] the entry the table has for the name, and a
    name without entry raises [KeyError] before any POST. *)
Theorem LANG_2_FLORES_static_table :
  length LANG_2_FLORES = 9 /\
  NoDup (dict_keys LANG_2_FLORES) /\
  dict_get "English" LANG_2_FLORES = Some "eng_Latn" /\
  (forall fs, lang_2_flores (initial_world fs) = LANG_2_FLORES) /\
  (forall text, keeps_globals (classify send json_loads text)) /\
  (forall text, keeps_globals (ner send json_loads text)) /\
  keeps_globals get_supported_languages /\
  (forall text tgt_lang, keeps_globals (translate text tgt_lang)) /\
  (forall (K : Type) (fn : K -> M json) (kwargs : K),
     keeps_globals (fn kwargs) -> keeps_globals (request fn kwargs)) /\
  (forall file, keeps_globals (upload_file file)) /\
  (forall file ui, keeps_globals (upload_button_upload file ui)) /\
  (forall ui, keeps_globals
                (classify_button_click send json_loads pandas from_records_other ui)) /\
  (forall ui, keeps_globals
                (ner_button_click send json_loads pandas from_records_other ui)) /\
  (forall ui, keeps_globals
                (translate_button_click send json_loads detect_language_of
                                        pandas from_records_other ui)) /\
  (forall text tgt_lang w,
     exists issued : list http_request,
       http_log (snd (translate text tgt_lang w)) = http_log w ++ issued /\
       (issued = [supported_request] \/
        exists src_lang tgt_code : string,
          dict_get tgt_lang (lang_2_flores w) = Some tgt_code /\
          issued = [supported_request; translate_request text src_lang tgt_code])) /\
  (forall (text tgt_lang : string) (w : World) (supported : json)
          (before after : list string) (src_lang : string) (language : Language),
     fst (get_supported_languages w) = Return supported ->
     getitem supported "supported_languages" =
       Return (JArr (map JStr (before ++ src_lang :: after))) ->
     detect_language_of text = Some language ->
     Forall (fun l => startswith l (lower (name (iso_code_639_3 language))) = false)
            before ->
     startswith src_lang (lower (name (iso_code_639_3 language))) = true ->
     (forall tgt_code : string,
        dict_get tgt_lang (lang_2_flores w) = Some tgt_code ->
        http_log (snd (translate text tgt_lang w)) =
          http_log w ++
          [HttpRequest GET "https://quest.ms.mff.cuni.cz/dimbu/supported_languages" None;
           HttpRequest POST "https://quest.ms.mff.cuni.cz/dimbu/translate"
             (Some (JObj [("text", JStr text);
                          ("src_lang", JStr src_lang);
                          ("tgt_lang", JStr tgt_code)]))]) /\
     (dict_get tgt_lang (lang_2_flores w) = None ->
      translate text tgt_lang w =
        (Raise (KeyError tgt_lang),
         log_request
           (HttpRequest GET "https://quest.ms.mff.cuni.cz/dimbu/supported_languages" None)
           w))).
Proof.
  pose proof keeps_classify. pose proof keeps_ner.
  pose proof keeps_get_supported_languages. pose proof keeps_translate.
  pose proof @keeps_request.
  split; [reflexivity|].
  split; [apply (bool_decide_unpack _); vm_compute; reflexivity|].
  split; [reflexivity|].
  split; [reflexivity|].
  repeat (split; [solve [auto with globals]|]).
  split; [intros file ui; unfold upload_button_upload; keeps|].
  split; [intros ui; unfold classify_button_click; keeps|].
  split; [intros ui; unfold ner_button_click; keeps|].
  split; [intros ui; unfold translate_button_click; keeps|].
  split; [apply translate_requests|].
  intros text tgt_lang w supported before after src_lang language
         Hfetch Hitem Hdetect Hbefore Hsrc.
  rewrite (translate_target_lookup text tgt_lang w supported before after src_lang
             language Hfetch Hitem Hdetect Hbefore Hsrc).
  split.
  - intros tgt_code ->. cbn [snd log_request http_log].
    rewrite <- app_assoc. reflexivity.
  - intros ->. reflexivity.
Qed.

End Properties.

(** * The program on concrete inputs *)

(** The classification scenario: one record with a term and a score gives
    a one-row table with the column [term] only. *)
Example classify_greeting_table :
  normalize as_parsed stub_other (JObj (results_fields greeting_records)) =
  Return (DTable {| columns := ["term"]; index := 1;
                    arrays := [[Some (JStr "greeting")]] |}).
Proof. reflexivity. Qed.

Lemma request_text_verbatim_witness :
  dict_mem "text" text_fields = true /\
  exists v : json,
    dict_get "text" text_fields = Some v /\
    request as_parsed stub_other (answering (JObj text_fields)) tt sample_world =
      (Return (DValue v), sample_world) /\
    (forall s : string, v = JStr s ->
       request as_parsed stub_other (answering (JObj text_fields)) tt sample_world =
         (Return (DValue (JStr s)), sample_world)).
Proof.
  split; [reflexivity|].
  apply (request_text_verbatim as_parsed stub_other (answering (JObj text_fields)) tt
           sample_world sample_world text_fields); reflexivity.
Defined.

Lemma request_detail_verbatim_witness :
  dict_mem "text" detail_fields = false /\
  dict_mem "detail" detail_fields = true /\
  exists v : json,
    dict_get "detail" detail_fields = Some v /\
    request as_parsed stub_other (answering (JObj detail_fields)) tt sample_world =
      (Return (DValue v), sample_world) /\
    request as_parsed stub_other (answering (JObj detail_fields)) tt sample_world =
      request as_parsed stub_other (answering (JObj [("text", v)])) tt sample_world.
Proof.
  split; [reflexivity|]. split; [reflexivity|].
  apply (request_detail_verbatim as_parsed stub_other (answering (JObj detail_fields)) tt
           sample_world sample_world detail_fields); reflexivity.
Defined.

Lemma request_without_known_key_witness :
  request as_parsed stub_other (answering (JObj unknown_fields)) tt sample_world =
    (Raise (KeyError "results"), sample_world) /\
  (forall d : display,
     fst (request as_parsed stub_other (answering (JObj unknown_fields)) tt sample_world)
     <> Return d).
Proof.
  apply (request_without_known_key as_parsed stub_other (answering (JObj unknown_fields)) tt
           sample_world sample_world unknown_fields); reflexivity.
Defined.

Lemma request_deterministic_stateless_witness :
  let direct := request as_parsed stub_other (answering (JObj [("text", JStr "Hallo Welt")])) tt in
  let served :=
    request as_parsed stub_other
            (fun t => translate stub_send stub_loads stub_detect t "German")
            "Hello world" in
  fst (direct sample_world) = fst (served sample_world) /\
  fst (direct sample_world) =
    normalize as_parsed stub_other (JObj [("text", JStr "Hallo Welt")]) /\
  snd (direct sample_world) = sample_world /\
  snd (served sample_world) =
    log_request (translate_request "Hello world" "eng_Latn" "deu_Latn")
                (log_request supported_request sample_world).
Proof.
  apply (request_deterministic_stateless as_parsed stub_other
           (answering (JObj [("text", JStr "Hallo Welt")]))
           (fun t => translate stub_send stub_loads stub_detect t "German")
           tt "Hello world"); reflexivity.
Defined.

Lemma request_results_table_witness :
  dict_get "results" (results_fields greeting_records) =
    Some (JArr (map JObj greeting_records)) /\
  exists t : DataFrame,
    request as_parsed stub_other (answering (JObj (results_fields greeting_records))) tt
            sample_world = (Return (DTable t), sample_world) /\
    has_column "score" t = false /\
    (forall k, In k (columns t) <->
               k <> "score" /\
               exists r, In r greeting_records /\ dict_mem k r = true) /\
    Forall (fun a => length a = length greeting_records) (arrays t) /\
    ((exists r, In r greeting_records /\ r <> []) ->
     nrows t = length greeting_records) /\
    (Forall (fun r => r = []) greeting_records -> nrows t = 0).
Proof.
  split; [reflexivity|].
  apply (request_results_table as_parsed stub_other
           (answering (JObj (results_fields greeting_records))) tt
           sample_world sample_world (results_fields greeting_records)
           greeting_records); reflexivity.
Defined.

(** Two records without any key: the table read from them has no column
    array, hence an empty index, and [request] returns a table with no row
    for the two records. *)
Lemma request_rows_counterexample :
  let records : list (dict json) := [[]; []] in
  let empty := {| columns := []; index := 0; arrays := [] |} in
  dict_mem "text" (results_fields records) = false /\
  dict_mem "detail" (results_fields records) = false /\
  request as_parsed stub_other (answering (JObj (results_fields records))) tt sample_world =
    (Return (DTable empty), sample_world) /\
  nrows empty <> length records.
Proof.
  cbv zeta. repeat split; try reflexivity. simpl. discriminate.
Qed.

Lemma translate_source_first_match_witness :
  translate stub_send stub_loads stub_detect "Hello world" "German" sample_world =
    (Return (JObj [("text", JStr "Hallo Welt")]),
     log_request (translate_request "Hello world" "eng_Latn" "deu_Latn")
                 (log_request supported_request sample_world)).
Proof.
  assert (Hbefore : Forall (fun l => startswith l "eng" = false) ["deu_Latn"])
    by (repeat constructor).
  apply (proj1 (translate_source_first_match stub_send stub_loads stub_detect
                  "Hello world" sample_world supported_response
                  ["deu_Latn"] ["eng_Cyrl"; "ces_Latn"] "eng_Latn" ENGLISH
                  eq_refl eq_refl eq_refl Hbefore eq_refl)
               "German" "deu_Latn" eq_refl).
Defined.

Lemma translate_undetected_witness :
  stub_detect "%%%" = None /\
  translate stub_send stub_loads stub_detect "%%%" "German" sample_world =
    (Return (JObj [("text", JStr "")]), log_request supported_request sample_world) /\
  posts (http_log (snd (translate stub_send stub_loads stub_detect "%%%" "German"
                                  sample_world))) = [].
Proof.
  split; [reflexivity|].
  pose proof (translate_undetected stub_send stub_loads stub_detect
                "%%%" "German" sample_world eq_refl) as [_ [Hposts [Hret _]]].
  split; [apply (Hret supported_response (JArr (map JStr stub_supported)));
          reflexivity | exact Hposts].
Defined.

(** No language is detected in the text, and yet [translate] returns
    nothing: the list of supported languages is fetched first, and the
    network is down. *)
Lemma translate_undetected_counterexample :
  stub_detect "%%%" = None /\
  translate down_send stub_loads stub_detect "%%%" "German" sample_world =
    (Raise RequestException, log_request supported_request sample_world) /\
  fst (translate down_send stub_loads stub_detect "%%%" "German" sample_world) <>
    Return (JObj [("text", JStr "")]).
Proof.
  split; [reflexivity|]. split; [reflexivity|]. discriminate.
Qed.

Lemma translate_no_match_index_error_witness :
  stub_detect "Bonjour" = Some FRENCH /\
  translate stub_send stub_loads stub_detect "Bonjour" "German" sample_world =
    (Raise IndexError, log_request supported_request sample_world).
Proof.
  split; [reflexivity|].
  apply (translate_no_match_index_error stub_send stub_loads stub_detect
           "Bonjour" "German" sample_world supported_response stub_supported FRENCH);
    try reflexivity.
  repeat constructor.
Defined.

(** Uploading a file that holds "Bonjour" over a text box that held
    "previous text". *)
Lemma upload_replaces_text_witness :
  ui_text sample_ui = "previous text" /\
  files sample_world !! "/tmp/bonjour.txt" = Some "Bonjour" /\
  exists text : string,
    upload_file "/tmp/bonjour.txt" sample_world = (Return text, sample_world) /\
    text = "Bonjour" /\
    exists ui' : UI,
      upload_button_upload "/tmp/bonjour.txt" sample_ui sample_world =
        (Return ui', sample_world) /\
      ui_text ui' = text.
Proof.
  split; [reflexivity|]. split; [reflexivity|].
  destruct (upload_replaces_text "/tmp/bonjour.txt" "Bonjour" sample_ui sample_world
              eq_refl eq_refl)
    as [text [Hread [_ [_ [Hsame [ui' [Hrun [Htext _]]]]]]]].
  exists text. split; [exact Hread|]. split; [exact (Hsame eq_refl)|].
  exists ui'. split; [exact Hrun | exact Htext].
Defined.

(** A file with a DOS line ending: its content read as UTF-8 has the
    carriage return, the text box does not. *)
Lemma upload_replaces_text_counterexample :
  files uploads_world !! "/tmp/dos.txt" = Some dos_bytes /\
  utf8_decode dos_bytes = Some dos_bytes /\
  exists ui' : UI,
    upload_button_upload "/tmp/dos.txt" sample_ui uploads_world =
      (Return ui', uploads_world) /\
    ui_text ui' = String.append "Bon" (String LF "jour") /\
    ui_text ui' <> dos_bytes.
Proof.
  split; [reflexivity|]. split; [reflexivity|].
  exists (set_text (String.append "Bon" (String LF "jour")) sample_ui).
  split; [reflexivity|]. split; [reflexivity|]. discriminate.
Qed.

(** The table as loaded resolves "German" to "deu_Latn" in the request
    [translate] posts. *)
Lemma LANG_2_FLORES_static_table_witness :
  dict_get "German" (lang_2_flores sample_world) = Some "deu_Latn" /\
  http_log (snd (translate stub_send stub_loads stub_detect "Hello world" "German"
                           sample_world)) =
    [HttpRequest GET "https://quest.ms.mff.cuni.cz/dimbu/supported_languages" None;
     HttpRequest POST "https://quest.ms.mff.cuni.cz/dimbu/translate"
       (Some (JObj [("text", JStr "Hello world");
                    ("src_lang", JStr "eng_Latn");
                    ("tgt_lang", JStr "deu_Latn")]))].
Proof.
  split; [reflexivity|].
  assert (Hbefore : Forall (fun l => startswith l "eng" = false) ["deu_Latn"])
    by (repeat constructor).
  destruct (LANG_2_FLORES_static_table stub_send stub_loads stub_detect as_parsed
              stub_other)
    as (_ & _ & _ & _ & _ & _ & _ & _ & _ & _ & _ & _ & _ & _ & _ & Hlookup).
  apply (proj1 (Hlookup "Hello world" "German" sample_world supported_response
                  ["deu_Latn"] ["eng_Cyrl"; "ces_Latn"] "eng_Latn" ENGLISH
                  eq_refl eq_refl eq_refl Hbefore eq_refl)
               "deu_Latn" eq_refl).
Defined.

(** * Further properties *)

(** ** Lists of keys *)

Lemma fold_add_unique_known (buf uniques : list string) :
  (forall k, In k buf -> In k uniques) ->
  fold_left add_unique buf uniques = uniques.
Proof.
  revert uniques. induction buf as [|k buf IH]; intros uniques Hknown;
    [reflexivity|].
  cbn [fold_left]. unfold add_unique at 2.
  rewrite (proj2 (existsb_eqb_In k uniques)) by (apply Hknown; left; reflexivity).
  apply IH. intros k' Hk'. apply Hknown. right. exact Hk'.
Qed.

Lemma fold_add_unique_fresh (buf uniques : list string) :
  NoDup buf -> (forall k, In k buf -> ~ In k uniques) ->
  fold_left add_unique buf uniques = uniques ++ buf.
Proof.
  intros Hnodup. revert uniques.
  induction Hnodup as [|k buf Hk _ IH]; intros uniques Hfresh.
  - symmetry. apply app_nil_r.
  - cbn [fold_left]. unfold add_unique at 2.
    destruct (existsb (String.eqb k) uniques) eqn:E.
    + apply existsb_eqb_In in E. exfalso. apply (Hfresh k); [left; reflexivity | exact E].
    + rewrite IH.
      * rewrite <- app_assoc. reflexivity.
      * intros k' Hk' Hin. apply in_app_iff in Hin as [Hin | [-> | []]].
        -- apply (Hfresh k'); [right; exact Hk' | exact Hin].
        -- apply Hk. apply list_elem_of_In. exact Hk'.
Qed.

Lemma add_unique_NoDup (uniques : list string) (val : string) :
  NoDup uniques -> NoDup (add_unique uniques val).
Proof.
  intros H. unfold add_unique.
  destruct (existsb (String.eqb val) uniques) eqn:E; [exact H|].
  apply NoDup_app. split; [exact H|]. split.
  - intros k Hk Hval. apply list_elem_of_In in Hk, Hval.
    destruct Hval as [<- | []].
    apply existsb_eqb_In in Hk. congruence.
  - apply NoDup_singleton.
Qed.

Lemma fold_add_unique_NoDup (buf uniques : list string) :
  NoDup uniques -> NoDup (fold_left add_unique buf uniques).
Proof.
  revert uniques. induction buf as [|k buf IH]; intros uniques H; [exact H|].
  apply IH, add_unique_NoDup, H.
Qed.

Lemma fast_unique_multiple_list_gen_NoDup (gen : list (list string)) :
  NoDup (fast_unique_multiple_list_gen gen).
Proof.
  unfold fast_unique_multiple_list_gen.
  assert (H : NoDup (@nil string)) by constructor.
  revert H. generalize (@nil string) as uniques.
  induction gen as [|buf gen IH]; intros uniques H; [exact H|].
  apply IH, fold_add_unique_NoDup, H.
Qed.

(** Records that all have the same distinct keys give those keys, in the
    records' order. *)
Lemma fast_unique_multiple_list_gen_uniform (ks : list string) (gen : list (list string)) :
  NoDup ks -> gen <> [] -> Forall (fun buf => buf = ks) gen ->
  fast_unique_multiple_list_gen gen = ks.
Proof.
  intros Hnodup Hne Hall. unfold fast_unique_multiple_list_gen.
  destruct gen as [|buf gen]; [congruence|].
  apply List.Forall_cons_iff in Hall as [-> Hall].
  cbn [fold_left]. rewrite (fold_add_unique_fresh ks []) by (auto; intros k _ []).
  cbn [app]. clear Hne.
  induction gen as [|buf gen IH]; [reflexivity|].
  apply List.Forall_cons_iff in Hall as [-> Hall].
  cbn [fold_left]. rewrite (fold_add_unique_known ks ks) by auto.
  apply IH, Hall.
Qed.

Lemma combine_map_filter {A B} (p : A -> bool) (f : A -> B) (l : list A) :
  map snd (List.filter (fun ab => p (fst ab)) (combine l (map f l))) =
  map f (List.filter p l).
Proof.
  induction l as [|a l IH]; [reflexivity|].
  cbn [map combine List.filter fst]. destruct (p a); cbn [map snd]; rewrite IH; reflexivity.
Qed.

Lemma dict_get_In {V} (k : string) (d : dict V) (v : V) :
  dict_get k d = Some v -> In (k, v) d.
Proof.
  induction d as [|[k' v'] d IH]; [discriminate|].
  cbn [dict_get]. destruct (String.eqb k k') eqn:E.
  - apply String.eqb_eq in E. subst. intros [= ->]. left. reflexivity.
  - intros H. right. apply IH, H.
Qed.

Lemma dict_get_of_key {V} (k : string) (d : dict V) :
  In k (dict_keys d) -> dict_get k d <> None.
Proof.
  intros Hin. apply dict_mem_keys, dict_mem_get in Hin as [v Hv]. congruence.
Qed.

Lemma filter_all {A} (p : A -> bool) (l : list A) :
  (forall a, In a l -> p a = true) -> List.filter p l = l.
Proof.
  induction l as [|a l IH]; intros H; [reflexivity|].
  cbn [List.filter]. rewrite (H a) by (left; reflexivity).
  rewrite IH; [reflexivity|]. intros b Hb. apply H. right. exact Hb.
Qed.

Section FurtherProperties.

Variable send : list http_request -> http_request -> outcome string.
Variable json_loads : string -> option json.
Variable detect_language_of : string -> option Language.
Variable pandas : ColumnConversion.
Variable from_records_other : json -> outcome DataFrame.

#[local] Abbreviation normalize := (normalize pandas from_records_other).
#[local] Abbreviation request := (request pandas from_records_other).
#[local] Abbreviation translate := (translate send json_loads detect_language_of).
#[local] Abbreviation get_supported_languages := (get_supported_languages send json_loads).
#[local] Abbreviation classify := (classify send json_loads).
#[local] Abbreviation ner := (ner send json_loads).

(** ** The normaliser on ill-formed and well-formed responses *)

Lemma request_run {K : Type} (fn : K -> M json) (kwargs : K) (w : World) :
  request fn kwargs w =
  match fn kwargs w with
  | (Return response, w') => (normalize response, w')
  | (Raise e, w') => (Raise e, w')
  end.
Proof. reflexivity. Qed.

Lemma normalize_fields_results (fields : dict json) :
  dict_mem "text" fields = false ->
  dict_mem "detail" fields = false ->
  normalize (JObj fields) =
    and_then (from_option (KeyError "results") (dict_get "results" fields)) (fun data =>
    and_then (from_records pandas from_records_other data) (fun results =>
    if has_column "score" results
    then outcome_map DTable (drop ["score"] results)
    else Return (DTable results))).
Proof.
  intros Htext Hdetail.
  unfold MemoriseApiDemo.normalize, keys, and_then, getitem.
  change (existsb (String.eqb "text") (dict_keys fields)) with (dict_mem "text" fields).
  change (existsb (String.eqb "detail") (dict_keys fields)) with (dict_mem "detail" fields).
  rewrite Htext, Hdetail. reflexivity.
Qed.

(** The table [request] builds from a sequence of records, in closed form. *)
Lemma normalize_records (fields : dict json) (records : list (dict json)) :
  dict_mem "text" fields = false ->
  dict_mem "detail" fields = false ->
  dict_get "results" fields = Some (JArr (map JObj records)) ->
  normalize (JObj fields) = Return (DTable (records_table pandas records)).
Proof.
  intros Htext Hdetail Hget.
  rewrite (normalize_fields_results _ Htext Hdetail), Hget.
  cbn [from_option and_then].
  assert (Hfrom : from_records pandas from_records_other (JArr (map JObj records)) =
                  Return (frame_of_dicts pandas records)).
  { destruct records as [|r records]; [reflexivity|].
    unfold from_records. cbn [map].
    change (JObj r :: map JObj records) with (map JObj (r :: records)).
    rewrite as_dicts_map. reflexivity. }
  rewrite Hfrom. cbn [and_then].
  set (cols := fast_unique_multiple_list_gen (map dict_keys records)).
  destruct (has_column "score" (frame_of_dicts pandas records)) eqn:Escore.
  - unfold drop. cbn [find]. rewrite Escore. cbn [negb outcome_map and_then].
    do 2 f_equal. unfold records_table. fold cols.
    cbn [frame_of_dicts columns index arrays]. fold cols. unfold dicts_to_arrays.
    assert (Hext : forall c : string,
              negb (existsb (String.eqb c) ["score"]) = score_free c).
    { intros c. unfold score_free. cbn [existsb]. rewrite orb_false_r. reflexivity. }
    f_equal.
    + rewrite (combine_filter_fst (fun c => negb (existsb (String.eqb c) ["score"])))
        by (symmetry; apply length_map).
      apply List.filter_ext, Hext.
    + rewrite (combine_map_filter (fun c => negb (existsb (String.eqb c) ["score"]))).
      f_equal. apply List.filter_ext, Hext.
  - do 2 f_equal. unfold records_table. fold cols.
    assert (Hall : List.filter score_free cols = cols).
    { apply filter_all. intros c Hc. unfold score_free.
      apply negb_true_iff, String.eqb_neq. intros ->.
      apply existsb_eqb_In in Hc. unfold has_column in Escore.
      cbn [frame_of_dicts columns] in Escore. fold cols in Escore. congruence. }
    rewrite Hall. reflexivity.
Qed.

(** X1: [request] adds nothing to what the service call does to the
    world, and an exception of the service call comes out of [request]
    unchanged, before any normalisation. *)
Theorem request_propagates_failure {K : Type} (fn : K -> M json) (kwargs : K)
        (w : World) :
  snd (request fn kwargs w) = snd (fn kwargs w) /\
  (forall (e : exn) (w' : World),
     fn kwargs w = (Raise e, w') -> request fn kwargs w = (Raise e, w')).
Proof.
  rewrite request_run. split.
  - destruct (fn kwargs w) as [[response | e] w']; reflexivity.
  - intros e w' ->. reflexivity.
Qed.

(** X2: a response that is not a dictionary (null, a boolean, a number, a
    string or a list) has no [keys]: [request] raises [AttributeError]. *)
Theorem request_non_dict_response {K : Type} (fn : K -> M json) (kwargs : K)
        (w w' : World) (response : json) :
  fn kwargs w = (Return response, w') ->
  is_dict response = false ->
  request fn kwargs w = (Raise (AttributeError "keys"), w').
Proof.
  intros Hfn Hno. rewrite request_run, Hfn.
  destruct response; try reflexivity. discriminate.
Qed.

(** X3: when [results] is what is left to read and it is null, a boolean
    or a number, building the table fails with [TypeError]. *)
Theorem request_scalar_results {K : Type} (fn : K -> M json) (kwargs : K)
        (w w' : World) (fields : dict json) (data : json) :
  fn kwargs w = (Return (JObj fields), w') ->
  dict_mem "text" fields = false ->
  dict_mem "detail" fields = false ->
  dict_get "results" fields = Some data ->
  is_scalar data = true ->
  request fn kwargs w = (Raise TypeError, w').
Proof.
  intros Hfn Htext Hdetail Hget Hscalar.
  rewrite request_run, Hfn, (normalize_fields_results _ Htext Hdetail), Hget.
  destruct data; try discriminate; reflexivity.
Qed.

(** X5: the table [request] returns for a sequence of records has
    pairwise distinct column labels and one array per column; in the array
    of column [c], the cell at the position of record [r] is NaN when [r]
    lacks the key [c], and is the string itself when [r] has a string
    there. *)
Theorem request_table_cells {K : Type} (fn : K -> M json) (kwargs : K)
        (w w' : World) (fields : dict json) (records : list (dict json)) :
  fn kwargs w = (Return (JObj fields), w') ->
  dict_mem "text" fields = false ->
  dict_mem "detail" fields = false ->
  dict_get "results" fields = Some (JArr (map JObj records)) ->
  exists t : DataFrame,
    request fn kwargs w = (Return (DTable t), w') /\
    NoDup (columns t) /\
    length (arrays t) = length (columns t) /\
    (forall (j i : nat) (c : string) (r : dict json),
       nth_error (columns t) j = Some c ->
       nth_error records i = Some r ->
       exists column : list cell,
         nth_error (arrays t) j = Some column /\
         (dict_get c r = None -> nth_error column i = Some None) /\
         (forall s : string,
            dict_get c r = Some (JStr s) ->
            nth_error column i = Some (Some (JStr s)))).
Proof.
  intros Hfn Htext Hdetail Hget.
  exists (records_table pandas records).
  rewrite request_run, Hfn, (normalize_records _ _ Htext Hdetail Hget).
  split; [reflexivity|]. cbn [records_table columns arrays]. split; [|split].
  - apply NoDup_ListNoDup, List.NoDup_filter, NoDup_ListNoDup,
      fast_unique_multiple_list_gen_NoDup.
  - apply length_map.
  - intros j i c r Hc Hr. unfold dicts_to_arrays.
    exists (convert_column pandas (map (dict_get c) records)). split; [|split].
    + rewrite nth_error_map, Hc. reflexivity.
    + intros Hnone. apply convert_nan.
      rewrite nth_error_map, Hr, <- Hnone. reflexivity.
    + intros s' Hs. apply convert_str.
      rewrite nth_error_map, Hr, <- Hs. reflexivity.
Qed.

(** X6: for a non-empty sequence of records that all carry the same
    distinct keys, the columns of the returned table are those keys in the
    records' order with [score] left out, and there is one row per record
    and one cell per record in every column. *)
Theorem request_uniform_records {K : Type} (fn : K -> M json) (kwargs : K)
        (w w' : World) (fields : dict json) (records : list (dict json))
        (ks : list string) :
  fn kwargs w = (Return (JObj fields), w') ->
  dict_mem "text" fields = false ->
  dict_mem "detail" fields = false ->
  dict_get "results" fields = Some (JArr (map JObj records)) ->
  records <> [] -> ks <> [] -> NoDup ks ->
  Forall (fun r => dict_keys r = ks) records ->
  exists t : DataFrame,
    request fn kwargs w = (Return (DTable t), w') /\
    columns t = List.filter score_free ks /\
    nrows t = length records /\
    Forall (fun a => length a = length records) (arrays t).
Proof.
  intros Hfn Htext Hdetail Hget Hrecords Hks Hnodup Hall.
  exists (records_table pandas records).
  rewrite request_run, Hfn, (normalize_records _ _ Htext Hdetail Hget).
  split; [reflexivity|].
  assert (Hcols : fast_unique_multiple_list_gen (map dict_keys records) = ks).
  { apply fast_unique_multiple_list_gen_uniform; [exact Hnodup | |].
    - destruct records; [congruence | discriminate].
    - apply List.Forall_forall. intros buf Hbuf.
      apply in_map_iff in Hbuf as [r [<- Hr]].
      apply (proj1 (List.Forall_forall _ _) Hall r Hr). }
  unfold records_table, nrows. cbn [columns index arrays]. rewrite Hcols.
  split; [reflexivity|]. split.
  - apply frame_of_dicts_index.
    destruct records as [|r records]; [congruence|].
    exists r. split; [left; reflexivity|].
    apply List.Forall_cons_iff in Hall as [Hr _].
    intros ->. cbn in Hr. congruence.
  - apply List.Forall_forall. intros a Ha. unfold dicts_to_arrays in Ha.
    apply in_map_iff in Ha as [c [<- _]]. rewrite convert_length. apply length_map.
Qed.

End FurtherProperties.

(** What the table of a sequence of records looks like, whatever the
    column conversion. *)
Lemma records_table_shape (pandas : ColumnConversion) (records : list (dict json)) :
  has_column "score" (records_table pandas records) = false /\
  (forall k, In k (columns (records_table pandas records)) <->
             k <> "score" /\ exists r, In r records /\ dict_mem k r = true) /\
  ((exists r, In r records /\ r <> []) ->
   nrows (records_table pandas records) = length records).
Proof.
  unfold records_table, has_column, nrows. cbn [columns index].
  split; [apply filter_score_free|]. split.
  - intros k. rewrite List.filter_In. unfold score_free.
    rewrite negb_true_iff, String.eqb_neq.
    rewrite <- (frame_of_dicts_columns pandas records k). cbn [frame_of_dicts columns].
    split; intros [H1 H2]; split; assumption.
  - apply frame_of_dicts_index.
Qed.

Section TranslationAndClicks.

Variable send : list http_request -> http_request -> outcome string.
Variable json_loads : string -> option json.
Variable detect_language_of : string -> option Language.
Variable pandas : ColumnConversion.
Variable from_records_other : json -> outcome DataFrame.

#[local] Abbreviation normalize := (normalize pandas from_records_other).
#[local] Abbreviation request := (request pandas from_records_other).
#[local] Abbreviation translate := (translate send json_loads detect_language_of).
#[local] Abbreviation get_supported_languages := (get_supported_languages send json_loads).
#[local] Abbreviation classify := (classify send json_loads).
#[local] Abbreviation ner := (ner send json_loads).

(** ** Translation: the failure paths *)

Lemma select_startswith_not_str (lang : string) (items : list json) (item : json) :
  In item items -> is_str item = false ->
  select_startswith lang items = Raise (AttributeError "startswith").
Proof.
  induction items as [|x items IH]; intros Hin Hno; [destruct Hin|].
  destruct Hin as [-> | Hin].
  - destruct item; try reflexivity. discriminate.
  - destruct x; try reflexivity.
    cbn [select_startswith]. rewrite (IH Hin Hno). reflexivity.
Qed.

(** The first steps of [translate]: the GET, then the subscript. *)
Ltac fetched Hfetch Hitem :=
  unfold MemoriseApiDemo.translate; unfold bind at 1;
  rewrite (get_supported_languages_run send json_loads _ _ Hfetch);
  unfold bind at 1, lift_outcome at 1; rewrite Hitem.

Lemma get_supported_languages_fst (w : World) :
  fst (get_supported_languages w) =
  and_then (send (http_log w) supported_request)
           (fun body => from_option JSONDecodeError (json_loads body)).
Proof.
  unfold MemoriseApiDemo.get_supported_languages, bind, requests_get, requests,
    loads, lift_outcome.
  fold supported_request.
  destruct (send (http_log w) supported_request); reflexivity.
Qed.

(** [translate] up to and including the POST, once a source language has
    been selected and the target name is in the table. *)
Lemma translate_posts (text tgt_lang : string) (w : World) (supported : json)
      (before after : list string) (src_lang tgt_code : string) (language : Language) :
  fst (get_supported_languages w) = Return supported ->
  getitem supported "supported_languages" =
    Return (JArr (map JStr (before ++ src_lang :: after))) ->
  detect_language_of text = Some language ->
  Forall (fun l => startswith l (lower (name (iso_code_639_3 language))) = false)
         before ->
  startswith src_lang (lower (name (iso_code_639_3 language))) = true ->
  dict_get tgt_lang (lang_2_flores w) = Some tgt_code ->
  translate text tgt_lang w =
    (and_then (send (http_log w ++ [supported_request])
                    (translate_request text src_lang tgt_code))
              (fun body => from_option JSONDecodeError (json_loads body)),
     log_request (translate_request text src_lang tgt_code)
                 (log_request supported_request w)).
Proof.
  intros Hfetch Hitem Hdetect Hbefore Hsrc Htgt.
  fetched Hfetch Hitem. rewrite Hdetect.
  unfold bind, lift_outcome. cbn [from_option iter].
  rewrite select_startswith_strings, (filter_first_match _ _ _ _ Hbefore Hsrc).
  cbn [from_option global_LANG_2_FLORES log_request lang_2_flores].
  rewrite Htgt. cbn [from_option].
  unfold requests_post, requests, loads, lift_outcome.
  fold (translate_request text src_lang tgt_code).
  cbn [http_log log_request].
  destruct (send _ _); reflexivity.
Qed.

(** X7: [translate] fetches the supported languages before it looks at
    the text, so a failure of that step is the outcome of [translate]
    whatever the text and the target are, detected language or not: the
    exception of the GET, [JSONDecodeError] for a body that is no JSON,
    [KeyError] for a dictionary without [supported_languages], [TypeError]
    for a reply that is no dictionary.  Only the GET has been issued. *)
Theorem translate_fetch_failure (text tgt_lang : string) (w : World) :
  (forall e : exn,
     send (http_log w) supported_request = Raise e ->
     translate text tgt_lang w = (Raise e, log_request supported_request w)) /\
  (forall body : string,
     send (http_log w) supported_request = Return body ->
     (json_loads body = None ->
      translate text tgt_lang w =
        (Raise JSONDecodeError, log_request supported_request w)) /\
     (forall fields : dict json,
        json_loads body = Some (JObj fields) ->
        dict_mem "supported_languages" fields = false ->
        translate text tgt_lang w =
          (Raise (KeyError "supported_languages"), log_request supported_request w)) /\
     (forall reply : json,
        json_loads body = Some reply ->
        is_dict reply = false ->
        translate text tgt_lang w =
          (Raise TypeError, log_request supported_request w))).
Proof.
  assert (Hraise : forall e, fst (get_supported_languages w) = Raise e ->
            translate text tgt_lang w = (Raise e, log_request supported_request w)).
  { intros e He. unfold MemoriseApiDemo.translate. unfold bind at 1.
    rewrite (get_supported_languages_run send json_loads _ _ He). reflexivity. }
  assert (Hitem : forall supported e,
            fst (get_supported_languages w) = Return supported ->
            getitem supported "supported_languages" = Raise e ->
            translate text tgt_lang w = (Raise e, log_request supported_request w)).
  { intros supported e Hfetch He. fetched Hfetch He. reflexivity. }
  split.
  - intros e He. apply Hraise. rewrite get_supported_languages_fst, He. reflexivity.
  - intros body Hbody. split; [|split].
    + intros Hnone. apply Hraise.
      rewrite get_supported_languages_fst, Hbody. cbn [and_then].
      rewrite Hnone. reflexivity.
    + intros fields Hsome Hmem. apply (Hitem (JObj fields)).
      * rewrite get_supported_languages_fst, Hbody. cbn [and_then].
        rewrite Hsome. reflexivity.
      * apply dict_mem_false_get in Hmem. cbn [getitem]. rewrite Hmem. reflexivity.
    + intros reply Hsome Hno. apply (Hitem reply).
      * rewrite get_supported_languages_fst, Hbody. cbn [and_then].
        rewrite Hsome. reflexivity.
      * destruct reply; try reflexivity. discriminate.
Qed.

(** X8: when a source language has been selected but the target name is
    not in the table, [translate] raises [KeyError] for that name and
    issues no POST. *)
Theorem translate_unknown_target (text tgt_lang : string) (w : World)
        (supported : json) (before after : list string) (src_lang : string)
        (language : Language) :
  fst (get_supported_languages w) = Return supported ->
  getitem supported "supported_languages" =
    Return (JArr (map JStr (before ++ src_lang :: after))) ->
  detect_language_of text = Some language ->
  Forall (fun l => startswith l (lower (name (iso_code_639_3 language))) = false)
         before ->
  startswith src_lang (lower (name (iso_code_639_3 language))) = true ->
  dict_get tgt_lang (lang_2_flores w) = None ->
  translate text tgt_lang w =
    (Raise (KeyError tgt_lang), log_request supported_request w).
Proof.
  intros Hfetch Hitem Hdetect Hbefore Hsrc Htgt.
  fetched Hfetch Hitem. rewrite Hdetect.
  unfold bind, lift_outcome. cbn [from_option iter].
  rewrite select_startswith_strings, (filter_first_match _ _ _ _ Hbefore Hsrc).
  cbn [from_option global_LANG_2_FLORES log_request lang_2_flores].
  rewrite Htgt. reflexivity.
Qed.

(** X9: the filter runs over the whole list of supported languages, so a
    single entry that is not a string, anywhere in the list and even after
    a matching code, makes [translate] raise [AttributeError] once a
    language has been detected; no POST is issued. *)
Theorem translate_malformed_entry (text tgt_lang : string) (w : World)
        (supported : json) (items : list json) (item : json) (language : Language) :
  fst (get_supported_languages w) = Return supported ->
  getitem supported "supported_languages" = Return (JArr items) ->
  detect_language_of text = Some language ->
  In item items ->
  is_str item = false ->
  translate text tgt_lang w =
    (Raise (AttributeError "startswith"), log_request supported_request w).
Proof.
  intros Hfetch Hitem Hdetect Hin Hno.
  fetched Hfetch Hitem. rewrite Hdetect.
  unfold bind, lift_outcome. cbn [from_option iter].
  rewrite (select_startswith_not_str _ _ _ Hin Hno). reflexivity.
Qed.

(** X10: every name the dropdown offers is in the table, so with the
    table as loaded and a source language selected, [translate] reaches
    the POST for each offered choice, with that name's code. *)
Theorem translate_offered_choice (text tgt_lang : string) (w : World)
        (supported : json) (before after : list string) (src_lang : string)
        (language : Language) :
  fst (get_supported_languages w) = Return supported ->
  getitem supported "supported_languages" =
    Return (JArr (map JStr (before ++ src_lang :: after))) ->
  detect_language_of text = Some language ->
  Forall (fun l => startswith l (lower (name (iso_code_639_3 language))) = false)
         before ->
  startswith src_lang (lower (name (iso_code_639_3 language))) = true ->
  lang_2_flores w = LANG_2_FLORES ->
  In tgt_lang tgt_lang_choices ->
  exists tgt_code : string,
    In (tgt_lang, tgt_code) LANG_2_FLORES /\
    http_log (snd (translate text tgt_lang w)) =
      http_log w ++ [supported_request; translate_request text src_lang tgt_code].
Proof.
  intros Hfetch Hitem Hdetect Hbefore Hsrc Htable Hchoice.
  apply dict_mem_keys, dict_mem_get in Hchoice as [tgt_code Hcode].
  exists tgt_code. split.
  - apply dict_get_In, Hcode.
  - rewrite (translate_posts text tgt_lang w supported before after src_lang tgt_code
               language Hfetch Hitem Hdetect Hbefore Hsrc)
      by (rewrite Htable; exact Hcode).
    cbn [snd log_request http_log]. rewrite <- app_assoc. reflexivity.
Qed.

(** ** The service calls and the click events *)

Lemma classify_run (text : string) (w : World) :
  classify text w =
    (and_then (send (http_log w) (classify_request text))
              (fun body => from_option JSONDecodeError (json_loads body)),
     log_request (classify_request text) w).
Proof.
  unfold MemoriseApiDemo.classify, bind, requests_post, requests, loads, lift_outcome.
  fold (classify_request text).
  destruct (send (http_log w) (classify_request text)); reflexivity.
Qed.

Lemma ner_run (text : string) (w : World) :
  ner text w =
    (and_then (send (http_log w) (ner_request text))
              (fun body => from_option JSONDecodeError (json_loads body)),
     log_request (ner_request text) w).
Proof.
  unfold MemoriseApiDemo.ner, bind, requests_post, requests, loads, lift_outcome.
  fold (ner_request text).
  destruct (send (http_log w) (ner_request text)); reflexivity.
Qed.

(** An event that writes the value of a computation into a component. *)
Lemma event_run {A} (m : M A) (f : A -> UI) (w : World) :
  bind m (fun v => ret (f v)) w =
  match m w with
  | (Return v, w') => (Return (f v), w')
  | (Raise e, w') => (Raise e, w')
  end.
Proof. unfold bind, ret. destruct (m w) as [[v | e] w']; reflexivity. Qed.

Lemma event_returned {A} (m : M A) (f : A -> UI) (w w' : World) (ui' : UI) :
  bind m (fun v => ret (f v)) w = (Return ui', w') ->
  exists v, m w = (Return v, w') /\ ui' = f v.
Proof.
  rewrite event_run. destruct (m w) as [[v | e] w1]; [|discriminate].
  intros [= <- <-]. eauto.
Qed.

Lemma event_world {A} (m : M A) (f : A -> UI) (w : World) :
  snd (bind m (fun v => ret (f v)) w) = snd (m w).
Proof. rewrite event_run. destruct (m w) as [[v | e] w']; reflexivity. Qed.

Lemma request_world {K : Type} (fn : K -> M json) (kwargs : K) (w : World) :
  snd (request fn kwargs w) = snd (fn kwargs w).
Proof. rewrite request_run. destruct (fn kwargs w) as [[r | e] w']; reflexivity. Qed.

(** X11: a click on "Classify subject terms" posts the content of the
    text box, once, to the classification endpoint; when the reply is a
    dictionary with a sequence of records under [results] (and neither
    [text] nor [detail]), the table output becomes a table without a
    [score] column, whose columns are the other keys of the records and
    which has one row per record when some record has a key; the other
    components stay as they were. *)
Theorem classify_button_click_table (ui : UI) (w : World) (body : string)
        (fields : dict json) (records : list (dict json)) :
  send (http_log w)
       (HttpRequest POST (SEMTAG ++ "/classify")
                    (Some (JObj [("text", JStr (ui_text ui))]))) = Return body ->
  json_loads body = Some (JObj fields) ->
  dict_mem "text" fields = false ->
  dict_mem "detail" fields = false ->
  dict_get "results" fields = Some (JArr (map JObj records)) ->
  exists (t : DataFrame) (ui' : UI),
    classify_button_click send json_loads pandas from_records_other ui w =
      (Return ui',
       log_request (HttpRequest POST (SEMTAG ++ "/classify")
                                (Some (JObj [("text", JStr (ui_text ui))]))) w) /\
    ui_table_output ui' = Some (DTable t) /\
    ui_text ui' = ui_text ui /\
    ui_tgt_lang ui' = ui_tgt_lang ui /\
    ui_translate_output ui' = ui_translate_output ui /\
    has_column "score" t = false /\
    (forall k, In k (columns t) <->
               k <> "score" /\ exists r, In r records /\ dict_mem k r = true) /\
    ((exists r, In r records /\ r <> []) -> nrows t = length records).
Proof.
  intros Hsend Hloads Htext Hdetail Hget.
  exists (records_table pandas records),
         (set_table_output (DTable (records_table pandas records)) ui).
  split; [|repeat (split; [reflexivity|]); apply (records_table_shape pandas)].
  unfold classify_button_click. rewrite event_run, request_run, classify_run.
  unfold classify_request. rewrite Hsend.
  cbn [and_then]. rewrite Hloads. cbn [from_option].
  rewrite (normalize_records _ _ _ _ Htext Hdetail Hget). reflexivity.
Qed.

(** X12: a click on "Extract named entities" does the same with the
    entity endpoint, and writes into the same table output. *)
Theorem ner_button_click_table (ui : UI) (w : World) (body : string)
        (fields : dict json) (records : list (dict json)) :
  send (http_log w)
       (HttpRequest POST (NER ++ "/ner")
                    (Some (JObj [("text", JStr (ui_text ui))]))) = Return body ->
  json_loads body = Some (JObj fields) ->
  dict_mem "text" fields = false ->
  dict_mem "detail" fields = false ->
  dict_get "results" fields = Some (JArr (map JObj records)) ->
  exists (t : DataFrame) (ui' : UI),
    ner_button_click send json_loads pandas from_records_other ui w =
      (Return ui',
       log_request (HttpRequest POST (NER ++ "/ner")
                                (Some (JObj [("text", JStr (ui_text ui))]))) w) /\
    ui_table_output ui' = Some (DTable t) /\
    ui_text ui' = ui_text ui /\
    ui_tgt_lang ui' = ui_tgt_lang ui /\
    ui_translate_output ui' = ui_translate_output ui /\
    has_column "score" t = false /\
    (forall k, In k (columns t) <->
               k <> "score" /\ exists r, In r records /\ dict_mem k r = true) /\
    ((exists r, In r records /\ r <> []) -> nrows t = length records).
Proof.
  intros Hsend Hloads Htext Hdetail Hget.
  exists (records_table pandas records),
         (set_table_output (DTable (records_table pandas records)) ui).
  split; [|repeat (split; [reflexivity|]); apply (records_table_shape pandas)].
  unfold ner_button_click. rewrite event_run, request_run, ner_run.
  unfold ner_request. rewrite Hsend.
  cbn [and_then]. rewrite Hloads. cbn [from_option].
  rewrite (normalize_records _ _ _ _ Htext Hdetail Hget). reflexivity.
Qed.

(** X13: what each event sends, whatever comes back: an extraction click
    exactly one POST with the content of the text box, a translation click
    the GET and then at most one POST for that content, an upload
    nothing. *)
Theorem events_requests (ui : UI) (w : World) :
  http_log (snd (classify_button_click send json_loads pandas from_records_other ui w)) =
    http_log w ++ [classify_request (ui_text ui)] /\
  http_log (snd (ner_button_click send json_loads pandas from_records_other ui w)) =
    http_log w ++ [ner_request (ui_text ui)] /\
  (exists issued : list http_request,
     http_log (snd (translate_button_click send json_loads detect_language_of
                                           pandas from_records_other ui w)) =
       http_log w ++ issued /\
     (issued = [supported_request] \/
      exists src_lang tgt_code : string,
        issued = [supported_request;
                  translate_request (ui_text ui) src_lang tgt_code])) /\
  (forall file : string, snd (upload_button_upload file ui w) = w).
Proof.
  split; [|split; [|split]].
  - unfold classify_button_click. rewrite event_world, request_world, classify_run.
    reflexivity.
  - unfold ner_button_click. rewrite event_world, request_world, ner_run.
    reflexivity.
  - unfold translate_button_click. rewrite event_world, request_world. cbn [fst snd].
    destruct (translate_requests send json_loads detect_language_of
                (ui_text ui) (ui_tgt_lang ui) w) as [issued [Hlog Hissued]].
    exists issued. split; [exact Hlog|].
    destruct Hissued as [-> | [src_lang [tgt_code [_ ->]]]]; eauto.
  - intros file. unfold upload_button_upload. rewrite event_world.
    unfold upload_file. destruct (files w !! file) as [raw|]; [|reflexivity].
    destruct (utf8_decode raw); reflexivity.
Qed.

(** An event that returns changes the component it is bound to and no
    other: the extraction clicks set the table output to what [request]
    returned, the translation click sets the translation output; the text
    box and the selected language are never written by a click. *)
Theorem click_writes_its_output (ui ui' : UI) (w w' : World) :
  (classify_button_click send json_loads pandas from_records_other ui w = (Return ui', w') ->
   exists d : display,
     request classify (ui_text ui) w = (Return d, w') /\
     ui' = set_table_output d ui) /\
  (ner_button_click send json_loads pandas from_records_other ui w = (Return ui', w') ->
   exists d : display,
     request ner (ui_text ui) w = (Return d, w') /\
     ui' = set_table_output d ui) /\
  (translate_button_click send json_loads detect_language_of pandas from_records_other ui w
     = (Return ui', w') ->
   exists d : display,
     request (fun tl => translate (fst tl) (snd tl)) (ui_text ui, ui_tgt_lang ui) w
       = (Return d, w') /\
     ui' = set_translate_output d ui).
Proof.
  split; [|split]; intros Hrun; apply event_returned in Hrun; exact Hrun.
Qed.

(** X14: the two extraction clicks share one output: after a classify
    click and then an entity click, both returning, the table output holds
    what the entity request returned for the same text, and nothing of the
    classification is left; the other components are as before the two
    clicks. *)
Theorem ner_overwrites_classify (ui ui1 ui2 : UI) (w w1 w2 : World) :
  classify_button_click send json_loads pandas from_records_other ui w = (Return ui1, w1) ->
  ner_button_click send json_loads pandas from_records_other ui1 w1 = (Return ui2, w2) ->
  exists d : display,
    request ner (ui_text ui) w1 = (Return d, w2) /\
    ui2 = set_table_output d ui.
Proof.
  intros H1 H2.
  apply event_returned in H1 as [d1 [_ ->]].
  apply event_returned in H2 as [d2 [Hd2 ->]].
  exists d2. split; [exact Hd2 | reflexivity].
Qed.

(** X15: a translation click on a text in which no language is detected
    shows the empty string and sends nothing to the translation endpoint,
    provided the list of supported languages could be fetched. *)
Theorem translate_button_click_undetected (ui : UI) (w : World)
        (supported all_langs : json) :
  fst (get_supported_languages w) = Return supported ->
  getitem supported "supported_languages" = Return all_langs ->
  detect_language_of (ui_text ui) = None ->
  translate_button_click send json_loads detect_language_of pandas from_records_other ui w =
    (Return (set_translate_output (DValue (JStr "")) ui),
     log_request supported_request w).
Proof.
  intros Hfetch Hitem Hdetect.
  unfold translate_button_click. rewrite event_run, request_run. cbn [fst snd].
  assert (Hrun : translate (ui_text ui) (ui_tgt_lang ui) w =
                 (Return (JObj [("text", JStr "")]), log_request supported_request w)).
  { fetched Hfetch Hitem. rewrite Hdetect. reflexivity. }
  rewrite Hrun. reflexivity.
Qed.

(** X16: a translation click shows what the translation service put
    under [text]: with a source language selected and the chosen name in
    the table, the reply to the POST for (text box, source code, target
    code) is parsed, and the value of its [text] key becomes the content
    of the translation output. *)
Theorem translate_button_click_text (ui : UI) (w : World) (supported : json)
        (before after : list string) (src_lang tgt_code : string)
        (language : Language) (body : string) (fields : dict json) (v : json) :
  fst (get_supported_languages w) = Return supported ->
  getitem supported "supported_languages" =
    Return (JArr (map JStr (before ++ src_lang :: after))) ->
  detect_language_of (ui_text ui) = Some language ->
  Forall (fun l => startswith l (lower (name (iso_code_639_3 language))) = false)
         before ->
  startswith src_lang (lower (name (iso_code_639_3 language))) = true ->
  dict_get (ui_tgt_lang ui) (lang_2_flores w) = Some tgt_code ->
  send (http_log w ++ [supported_request])
       (translate_request (ui_text ui) src_lang tgt_code) = Return body ->
  json_loads body = Some (JObj fields) ->
  dict_get "text" fields = Some v ->
  translate_button_click send json_loads detect_language_of pandas from_records_other ui w =
    (Return (set_translate_output (DValue v) ui),
     log_request (translate_request (ui_text ui) src_lang tgt_code)
                 (log_request supported_request w)).
Proof.
  intros Hfetch Hitem Hdetect Hbefore Hsrc Htgt Hsend Hloads Htext.
  unfold translate_button_click. rewrite event_run, request_run. cbn [fst snd].
  rewrite (translate_posts _ _ _ _ _ _ _ _ _ Hfetch Hitem Hdetect Hbefore Hsrc Htgt).
  rewrite Hsend. cbn [and_then]. rewrite Hloads. cbn [from_option].
  unfold MemoriseApiDemo.normalize, keys, and_then, getitem.
  change (existsb (String.eqb "text") (dict_keys fields)) with (dict_mem "text" fields).
  rewrite (dict_get_mem _ _ _ Htext), Htext. reflexivity.
Qed.

End TranslationAndClicks.

(** ** Reading an uploaded file *)

Lemma universal_newlines_bounds (n : nat) (s : string) :
  String.length s <= n ->
  contains_byte CR (universal_newlines s) = false /\
  String.length (universal_newlines s) <= String.length s.
Proof.
  revert s. induction n as [|n IH]; intros s Hlen.
  - destruct s; [split; [reflexivity | cbn; lia] | cbn in Hlen; lia].
  - destruct s as [|c r]; [split; [reflexivity | cbn; lia]|].
    cbn [String.length] in Hlen.
    destruct (Ascii.eqb c CR) eqn:Ec.
    + cbn [universal_newlines]. rewrite Ec.
      destruct r as [|c' r']; [split; [reflexivity | cbn; lia]|].
      cbn [String.length] in Hlen.
      destruct (Ascii.eqb c' LF).
      * destruct (IH r' ltac:(lia)) as [Hcr Hle].
        split; [exact Hcr | cbn [String.length]; lia].
      * destruct (IH (String c' r') ltac:(cbn [String.length]; lia)) as [Hcr Hle].
        split; [exact Hcr | cbn [String.length] in *; lia].
    + rewrite (universal_newlines_cons _ _ Ec).
      destruct (IH r ltac:(lia)) as [Hcr Hle].
      split; [cbn [contains_byte]; rewrite Ec; exact Hcr | cbn [String.length]; lia].
Qed.

Lemma ascii_utf8_valid (s : string) :
  all_bytes (byte_in 0 127) s = true -> utf8_valid s = true.
Proof.
  induction s as [|c r IH]; [reflexivity|].
  cbn [all_bytes utf8_valid]. intros H.
  apply andb_true_iff in H as [Hc Hr]. rewrite Hc. apply IH, Hr.
Qed.

(** X17: a file that is missing makes the upload raise
    [FileNotFoundError], a file whose bytes are not well-formed UTF-8 makes
    it raise [UnicodeDecodeError]; in both cases the event returns no value
    for the text box, and an upload never changes the world: it sends
    nothing and writes no file. *)
Theorem upload_failures (file : string) (ui : UI) (w : World) :
  snd (upload_file file w) = w /\
  snd (upload_button_upload file ui w) = w /\
  (files w !! file = None ->
   upload_file file w = (Raise FileNotFoundError, w) /\
   upload_button_upload file ui w = (Raise FileNotFoundError, w)) /\
  (forall raw : string,
     files w !! file = Some raw -> utf8_valid raw = false ->
     upload_file file w = (Raise UnicodeDecodeError, w) /\
     upload_button_upload file ui w = (Raise UnicodeDecodeError, w)).
Proof.
  unfold upload_button_upload, bind, upload_file, utf8_decode.
  destruct (files w !! file) as [raw|].
  - destruct (utf8_valid raw) eqn:Hvalid.
    + split; [reflexivity|]. split; [reflexivity|]. split; [discriminate|].
      intros raw' [= <-] Hinvalid. congruence.
    + split; [reflexivity|]. split; [reflexivity|]. split; [discriminate|].
      intros raw' _ _. split; reflexivity.
  - split; [reflexivity|]. split; [reflexivity|]. split.
    + intros _. split; reflexivity.
    + intros raw'. discriminate.
Qed.

(** X18: the text an upload returns has no carriage return left, is not
    longer than the file, and reading it again as text would change
    nothing. *)
Theorem upload_text_normalised (file raw : string) (w : World) :
  files w !! file = Some raw ->
  utf8_valid raw = true ->
  exists text : string,
    upload_file file w = (Return text, w) /\
    contains_byte CR text = false /\
    String.length text <= String.length raw /\
    universal_newlines text = text.
Proof.
  intros Hfile Hvalid. exists (universal_newlines raw).
  destruct (universal_newlines_bounds (String.length raw) raw (le_n _)) as [Hcr Hle].
  split; [|split; [exact Hcr | split; [exact Hle|]]].
  - unfold upload_file, utf8_decode. rewrite Hfile, Hvalid. reflexivity.
  - apply universal_newlines_without_CR, Hcr.
Qed.

(** X19: a file made of ASCII bytes only is always accepted by the
    decoder: the upload returns its content, with the line endings read as
    LF. *)
Theorem upload_ascii_file (file raw : string) (ui : UI) (w : World) :
  files w !! file = Some raw ->
  all_bytes (byte_in 0 127) raw = true ->
  upload_button_upload file ui w = (Return (set_text (universal_newlines raw) ui), w).
Proof.
  intros Hfile Hascii.
  unfold upload_button_upload, bind, upload_file, utf8_decode.
  rewrite Hfile, (ascii_utf8_valid _ Hascii). reflexivity.
Qed.

(** ** The decoder *)

Lemma byte_in_spec (lo hi : N) (c : ascii) :
  byte_in lo hi c = true <-> (lo <= N_of_ascii c <= hi)%N.
Proof. unfold byte_in. rewrite andb_true_iff, !N.leb_le. reflexivity. Qed.

Lemma byte_in_widen (lo hi lo' hi' : N) (c : ascii) :
  byte_in lo hi c = true -> (lo' <= lo)%N -> (hi <= hi')%N ->
  byte_in lo' hi' c = true.
Proof. rewrite !byte_in_spec. lia. Qed.

Lemma byte_in_utf8_byte (lo hi : N) (c : ascii) :
  byte_in lo hi c = true -> (hi < 192 \/ 193 < lo /\ hi < 245)%N ->
  utf8_byte c = true.
Proof.
  intros Hin Hrange. apply byte_in_spec in Hin. unfold utf8_byte.
  apply negb_true_iff, orb_false_iff. split.
  - destruct (byte_in 192 193 c) eqn:E; [|reflexivity].
    apply byte_in_spec in E. lia.
  - destruct (byte_in 245 255 c) eqn:E; [|reflexivity].
    apply byte_in_spec in E. lia.
Qed.

Lemma byte_in_not_CR (lo hi : N) (c : ascii) :
  byte_in lo hi c = true -> (13 < lo)%N -> Ascii.eqb c CR = false.
Proof.
  intros Hin Hlo. destruct (Ascii.eqb c CR) eqn:E; [|reflexivity].
  apply Ascii.eqb_eq in E. subst c. apply byte_in_spec in Hin.
  change (N_of_ascii CR) with 13%N in Hin. lia.
Qed.

Lemma second_of_three_continuation (b0 b1 : ascii) :
  second_of_three b0 b1 = true -> is_continuation b1 = true.
Proof.
  unfold second_of_three, is_continuation.
  destruct (byte_in 224 224 b0); [|destruct (byte_in 237 237 b0)]; intros H;
    try exact H; apply (byte_in_widen _ _ _ _ _ H); lia.
Qed.

Lemma second_of_four_continuation (b0 b1 : ascii) :
  second_of_four b0 b1 = true -> is_continuation b1 = true.
Proof.
  unfold second_of_four, is_continuation.
  destruct (byte_in 240 240 b0); [|destruct (byte_in 244 244 b0)]; intros H;
    try exact H; apply (byte_in_widen _ _ _ _ _ H); lia.
Qed.

Lemma continuation_utf8_byte (c : ascii) :
  is_continuation c = true -> utf8_byte c = true.
Proof. intros H. apply (byte_in_utf8_byte _ _ _ H). lia. Qed.

Lemma continuation_not_CR (c : ascii) :
  is_continuation c = true -> Ascii.eqb c CR = false.
Proof. intros H. apply (byte_in_not_CR _ _ _ H). lia. Qed.

(** Every byte of a well-formed sequence is a byte UTF-8 uses. *)
Lemma utf8_valid_bytes (n : nat) (s : string) :
  String.length s <= n -> utf8_valid s = true -> all_bytes utf8_byte s = true.
Proof.
  revert s. induction n as [|n IH]; intros s Hlen;
    (destruct s as [|b0 r0]; [reflexivity|]); cbn [String.length] in Hlen; [lia|].
  cbn [utf8_valid all_bytes].
  destruct (byte_in 0 127 b0) eqn:E0.
  { intros Hv. rewrite (byte_in_utf8_byte _ _ _ E0) by lia.
    apply IH; [lia | exact Hv]. }
  destruct r0 as [|b1 r1]; [discriminate|]. cbn [String.length] in Hlen.
  destruct (byte_in 194 223 b0) eqn:E1.
  { intros Hv. apply andb_true_iff in Hv as [Hc1 Hv].
    rewrite (byte_in_utf8_byte _ _ _ E1) by lia. cbn [all_bytes].
    rewrite (continuation_utf8_byte _ Hc1). apply IH; [lia | exact Hv]. }
  destruct r1 as [|b2 r2]; [discriminate|]. cbn [String.length] in Hlen.
  destruct (byte_in 224 239 b0) eqn:E2.
  { intros Hv. apply andb_true_iff in Hv as [Hv Hr].
    apply andb_true_iff in Hv as [Hc1 Hc2].
    rewrite (byte_in_utf8_byte _ _ _ E2) by lia. cbn [all_bytes].
    rewrite (continuation_utf8_byte _ (second_of_three_continuation _ _ Hc1)),
      (continuation_utf8_byte _ Hc2).
    apply IH; [lia | exact Hr]. }
  destruct r2 as [|b3 r3]; [discriminate|]. cbn [String.length] in Hlen.
  intros Hv. apply andb_true_iff in Hv as [Hv Hr].
  apply andb_true_iff in Hv as [Hv Hc3]. apply andb_true_iff in Hv as [Hv Hc2].
  apply andb_true_iff in Hv as [E3 Hc1].
  rewrite (byte_in_utf8_byte _ _ _ E3) by lia. cbn [all_bytes].
  rewrite (continuation_utf8_byte _ (second_of_four_continuation _ _ Hc1)),
    (continuation_utf8_byte _ Hc2), (continuation_utf8_byte _ Hc3).
  apply IH; [lia | exact Hr].
Qed.

(** Reading line endings as LF keeps a byte sequence well formed. *)
Lemma universal_newlines_valid (n : nat) (s : string) :
  String.length s <= n -> utf8_valid s = true ->
  utf8_valid (universal_newlines s) = true.
Proof.
  revert s. induction n as [|n IH]; intros s Hlen;
    (destruct s as [|b0 r0]; [reflexivity|]); cbn [String.length] in Hlen; [lia|].
  cbn [utf8_valid].
  destruct (byte_in 0 127 b0) eqn:E0.
  { intros Hv. destruct (Ascii.eqb b0 CR) eqn:Ecr.
    - cbn [universal_newlines]. rewrite Ecr.
      destruct r0 as [|c' r']; [reflexivity|]. cbn [String.length] in Hlen.
      destruct (Ascii.eqb c' LF) eqn:Elf.
      + apply Ascii.eqb_eq in Elf. subst c'.
        change (utf8_valid (String LF r')) with (utf8_valid r') in Hv.
        change (utf8_valid (String LF (universal_newlines r')))
          with (utf8_valid (universal_newlines r')).
        apply IH; [lia | exact Hv].
      + change (utf8_valid (String LF (universal_newlines (String c' r'))))
          with (utf8_valid (universal_newlines (String c' r'))).
        apply IH; [cbn [String.length]; lia | exact Hv].
    - rewrite (universal_newlines_cons _ _ Ecr). cbn [utf8_valid]. rewrite E0.
      apply IH; [lia | exact Hv]. }
  assert (H0 : Ascii.eqb b0 CR = false).
  { destruct (Ascii.eqb b0 CR) eqn:E; [|reflexivity].
    apply Ascii.eqb_eq in E. subst b0. discriminate E0. }
  rewrite (universal_newlines_cons _ _ H0).
  destruct r0 as [|b1 r1]; [discriminate|]. cbn [String.length] in Hlen.
  destruct (byte_in 194 223 b0) eqn:E1.
  { intros Hv. apply andb_true_iff in Hv as [Hc1 Hv].
    rewrite (universal_newlines_cons _ _ (continuation_not_CR _ Hc1)).
    cbn [utf8_valid]. rewrite E0, E1, Hc1. apply IH; [lia | exact Hv]. }
  destruct r1 as [|b2 r2]; [discriminate|]. cbn [String.length] in Hlen.
  destruct (byte_in 224 239 b0) eqn:E2.
  { intros Hv. apply andb_true_iff in Hv as [Hv Hr].
    apply andb_true_iff in Hv as [Hc1 Hc2].
    rewrite (universal_newlines_cons _ _
               (continuation_not_CR _ (second_of_three_continuation _ _ Hc1))),
      (universal_newlines_cons _ _ (continuation_not_CR _ Hc2)).
    cbn [utf8_valid]. rewrite E0, E1, E2, Hc1, Hc2. apply IH; [lia | exact Hr]. }
  destruct r2 as [|b3 r3]; [discriminate|]. cbn [String.length] in Hlen.
  intros Hv. apply andb_true_iff in Hv as [Hv Hr].
  apply andb_true_iff in Hv as [Hv Hc3]. apply andb_true_iff in Hv as [Hv Hc2].
  apply andb_true_iff in Hv as [E3 Hc1].
  rewrite (universal_newlines_cons _ _
             (continuation_not_CR _ (second_of_four_continuation _ _ Hc1))),
    (universal_newlines_cons _ _ (continuation_not_CR _ Hc2)),
    (universal_newlines_cons _ _ (continuation_not_CR _ Hc3)).
  cbn [utf8_valid]. rewrite E0, E1, E2, E3, Hc1, Hc2, Hc3.
  apply IH; [lia | exact Hr].
Qed.

(** X20: a file that holds a byte UTF-8 never uses (0xC0, 0xC1, 0xF5 to
    0xFF: the byte-order marks of UTF-16 among them) is refused: the upload
    raises [UnicodeDecodeError] and the text box is not written. *)
Theorem upload_rejects_foreign_bytes (file raw : string) (ui : UI) (w : World) :
  files w !! file = Some raw ->
  all_bytes utf8_byte raw = false ->
  upload_button_upload file ui w = (Raise UnicodeDecodeError, w).
Proof.
  intros Hfile Hforeign.
  assert (Hinvalid : utf8_valid raw = false).
  { destruct (utf8_valid raw) eqn:E; [|reflexivity].
    rewrite (utf8_valid_bytes _ raw (le_n _) E) in Hforeign. discriminate. }
  unfold upload_button_upload, bind, upload_file, utf8_decode.
  rewrite Hfile, Hinvalid. reflexivity.
Qed.

(** X21: the text an upload returns is itself well-formed UTF-8: the text
    box receives a value that encodes back to bytes the decoder accepts. *)
Theorem upload_text_well_formed (file : string) (ui ui' : UI) (w w' : World) :
  upload_button_upload file ui w = (Return ui', w') ->
  utf8_valid (ui_text ui') = true /\
  utf8_decode (ui_text ui') = Some (ui_text ui').
Proof.
  unfold upload_button_upload, bind, upload_file, utf8_decode.
  destruct (files w !! file) as [raw|]; [|discriminate].
  destruct (utf8_valid raw) eqn:Hvalid; [|discriminate].
  intros [= <- _]. cbn [set_text ui_text].
  rewrite (universal_newlines_valid _ raw (le_n _) Hvalid). split; reflexivity.
Qed.

(** ** Repeated and failing service calls *)

Section ServiceCalls.

Variable send : list http_request -> http_request -> outcome string.
Variable json_loads : string -> option json.
Variable detect_language_of : string -> option Language.
Variable pandas : ColumnConversion.
Variable from_records_other : json -> outcome DataFrame.

#[local] Abbreviation translate := (translate send json_loads detect_language_of).
#[local] Abbreviation get_supported_languages := (get_supported_languages send json_loads).

(** X22: a [supported_languages] value that is null, a boolean or a
    number cannot be iterated: once a language has been detected,
    [translate] raises [TypeError] and issues no POST. *)
Theorem translate_scalar_language_list (text tgt_lang : string) (w : World)
        (supported all_langs : json) (language : Language) :
  fst (get_supported_languages w) = Return supported ->
  getitem supported "supported_languages" = Return all_langs ->
  is_scalar all_langs = true ->
  detect_language_of text = Some language ->
  translate text tgt_lang w = (Raise TypeError, log_request supported_request w).
Proof.
  intros Hfetch Hitem Hscalar Hdetect.
  unfold MemoriseApiDemo.translate. unfold bind at 1.
  rewrite (get_supported_languages_run send json_loads _ _ Hfetch).
  unfold bind at 1, lift_outcome at 1. rewrite Hitem, Hdetect.
  unfold bind, lift_outcome. cbn [from_option].
  destruct all_langs; try discriminate; reflexivity.
Qed.

(** X23: the list of supported languages is fetched anew by every call:
    after two calls of [translate], whatever their arguments and outcomes,
    the log holds the requests of the first call and then those of the
    second, and each of the two starts with its own GET. *)
Theorem translate_refetches (text1 tgt1 text2 tgt2 : string) (w : World) :
  exists rest1 rest2 : list http_request,
    http_log (snd (translate text2 tgt2 (snd (translate text1 tgt1 w)))) =
      http_log w ++ (supported_request :: rest1) ++ (supported_request :: rest2) /\
    length rest1 <= 1 /\ length rest2 <= 1.
Proof.
  destruct (translate_requests send json_loads detect_language_of text1 tgt1 w)
    as [issued1 [Hlog1 Hissued1]].
  destruct (translate_requests send json_loads detect_language_of text2 tgt2
              (snd (translate text1 tgt1 w))) as [issued2 [Hlog2 Hissued2]].
  rewrite Hlog2, Hlog1, <- app_assoc.
  destruct Hissued1 as [-> | [s1 [c1 [_ ->]]]];
    destruct Hissued2 as [-> | [s2 [c2 [_ ->]]]];
    eexists _, _; (split; [reflexivity | cbn; lia]).
Qed.

(** X24: an extraction click whose request fails raises what the request
    raised, and one whose reply is no JSON raises [JSONDecodeError]; the
    table output is not written, and the one POST has been sent. *)
Theorem extraction_click_failure (ui : UI) (w : World) :
  (forall e : exn,
     send (http_log w) (classify_request (ui_text ui)) = Raise e ->
     classify_button_click send json_loads pandas from_records_other ui w =
       (Raise e, log_request (classify_request (ui_text ui)) w)) /\
  (forall body : string,
     send (http_log w) (classify_request (ui_text ui)) = Return body ->
     json_loads body = None ->
     classify_button_click send json_loads pandas from_records_other ui w =
       (Raise JSONDecodeError, log_request (classify_request (ui_text ui)) w)) /\
  (forall e : exn,
     send (http_log w) (ner_request (ui_text ui)) = Raise e ->
     ner_button_click send json_loads pandas from_records_other ui w =
       (Raise e, log_request (ner_request (ui_text ui)) w)) /\
  (forall body : string,
     send (http_log w) (ner_request (ui_text ui)) = Return body ->
     json_loads body = None ->
     ner_button_click send json_loads pandas from_records_other ui w =
       (Raise JSONDecodeError, log_request (ner_request (ui_text ui)) w)).
Proof.
  unfold classify_button_click, ner_button_click.
  split; [|split; [|split]].
  - intros e He. rewrite event_run, request_run, classify_run, He. reflexivity.
  - intros body Hbody Hnone.
    rewrite event_run, request_run, classify_run, Hbody. cbn [and_then].
    rewrite Hnone. reflexivity.
  - intros e He. rewrite event_run, request_run, ner_run, He. reflexivity.
  - intros body Hbody Hnone.
    rewrite event_run, request_run, ner_run, Hbody. cbn [and_then].
    rewrite Hnone. reflexivity.
Qed.

End ServiceCalls.

(** * The further properties on concrete inputs *)

Lemma request_non_dict_response_witness :
  request as_parsed stub_other (answering (JArr [JStr "term"])) tt sample_world =
    (Raise (AttributeError "keys"), sample_world).
Proof.
  apply (request_non_dict_response as_parsed stub_other (answering (JArr [JStr "term"])) tt
           sample_world sample_world (JArr [JStr "term"])); reflexivity.
Defined.

Lemma request_scalar_results_witness :
  request as_parsed stub_other (answering (JObj [("results", JNull)])) tt sample_world =
    (Raise TypeError, sample_world).
Proof.
  apply (request_scalar_results as_parsed stub_other (answering (JObj [("results", JNull)])) tt
           sample_world sample_world [("results", JNull)] JNull); reflexivity.
Defined.

Lemma request_table_cells_witness :
  exists t : DataFrame,
    request as_parsed stub_other (answering (JObj (results_fields greeting_records))) tt
            sample_world = (Return (DTable t), sample_world) /\
    NoDup (columns t) /\
    length (arrays t) = length (columns t) /\
    (forall (j i : nat) (c : string) (r : dict json),
       nth_error (columns t) j = Some c ->
       nth_error greeting_records i = Some r ->
       exists column : list cell,
         nth_error (arrays t) j = Some column /\
         (dict_get c r = None -> nth_error column i = Some None) /\
         (forall s : string,
            dict_get c r = Some (JStr s) ->
            nth_error column i = Some (Some (JStr s)))).
Proof.
  apply (request_table_cells as_parsed stub_other
           (answering (JObj (results_fields greeting_records))) tt
           sample_world sample_world (results_fields greeting_records)
           greeting_records); reflexivity.
Defined.

Lemma request_uniform_records_witness :
  exists t : DataFrame,
    request as_parsed stub_other (answering (JObj (results_fields entity_records))) tt
            sample_world = (Return (DTable t), sample_world) /\
    columns t = ["entity"; "label"] /\
    nrows t = 2 /\
    Forall (fun a => length a = 2) (arrays t).
Proof.
  apply (request_uniform_records as_parsed stub_other
           (answering (JObj (results_fields entity_records))) tt
           sample_world sample_world (results_fields entity_records)
           entity_records ["entity"; "label"; "score"]); try reflexivity.
  - discriminate.
  - discriminate.
  - apply (bool_decide_unpack _). vm_compute. reflexivity.
  - repeat constructor.
Defined.

Lemma translate_unknown_target_witness :
  translate stub_send stub_loads stub_detect "Hello world" "Klingon" sample_world =
    (Raise (KeyError "Klingon"), log_request supported_request sample_world).
Proof.
  apply (translate_unknown_target stub_send stub_loads stub_detect
           "Hello world" "Klingon" sample_world supported_response
           ["deu_Latn"] ["eng_Cyrl"; "ces_Latn"] "eng_Latn" ENGLISH);
    try reflexivity.
  repeat constructor.
Defined.

Lemma translate_malformed_entry_witness :
  translate stub_send malformed_loads stub_detect "Hello world" "German" sample_world =
    (Raise (AttributeError "startswith"), log_request supported_request sample_world).
Proof.
  apply (translate_malformed_entry stub_send malformed_loads stub_detect
           "Hello world" "German" sample_world
           (JObj [("supported_languages", JArr [JStr "eng_Latn"; JNull])])
           [JStr "eng_Latn"; JNull] JNull ENGLISH); try reflexivity.
  right. left. reflexivity.
Defined.

Lemma translate_offered_choice_witness :
  In "Polish" tgt_lang_choices /\
  exists tgt_code : string,
    In ("Polish", tgt_code) LANG_2_FLORES /\
    http_log (snd (translate stub_send stub_loads stub_detect "Hello world" "Polish"
                             sample_world)) =
      http_log sample_world ++
      [supported_request; translate_request "Hello world" "eng_Latn" tgt_code].
Proof.
  assert (Hchoice : In "Polish" tgt_lang_choices) by (cbn; tauto).
  split; [exact Hchoice|].
  apply (translate_offered_choice stub_send stub_loads stub_detect
           "Hello world" "Polish" sample_world supported_response
           ["deu_Latn"] ["eng_Cyrl"; "ces_Latn"] "eng_Latn" ENGLISH);
    try reflexivity; [repeat constructor | exact Hchoice].
Defined.

Lemma classify_button_click_table_witness :
  exists (t : DataFrame) (ui' : UI),
    classify_button_click extraction_send extraction_loads as_parsed stub_other
                          hello_ui sample_world =
      (Return ui',
       log_request (HttpRequest POST (SEMTAG ++ "/classify")
                                (Some (JObj [("text", JStr "Hello world")])))
                   sample_world) /\
    ui_table_output ui' = Some (DTable t) /\
    ui_text ui' = "Hello world" /\
    ui_tgt_lang ui' = "German" /\
    ui_translate_output ui' = None /\
    has_column "score" t = false /\
    (forall k, In k (columns t) <->
               k <> "score" /\
               exists r, In r greeting_records /\ dict_mem k r = true) /\
    ((exists r, In r greeting_records /\ r <> []) ->
     nrows t = length greeting_records).
Proof.
  apply (classify_button_click_table extraction_send extraction_loads as_parsed
           stub_other hello_ui sample_world "classify-body"
           (results_fields greeting_records) greeting_records); reflexivity.
Defined.

Lemma ner_button_click_table_witness :
  exists (t : DataFrame) (ui' : UI),
    ner_button_click extraction_send extraction_loads as_parsed stub_other
                     hello_ui sample_world =
      (Return ui',
       log_request (HttpRequest POST (NER ++ "/ner")
                                (Some (JObj [("text", JStr "Hello world")])))
                   sample_world) /\
    ui_table_output ui' = Some (DTable t) /\
    ui_text ui' = "Hello world" /\
    ui_tgt_lang ui' = "German" /\
    ui_translate_output ui' = None /\
    has_column "score" t = false /\
    (forall k, In k (columns t) <->
               k <> "score" /\
               exists r, In r entity_records /\ dict_mem k r = true) /\
    ((exists r, In r entity_records /\ r <> []) ->
     nrows t = length entity_records).
Proof.
  apply (ner_button_click_table extraction_send extraction_loads as_parsed
           stub_other hello_ui sample_world "ner-body"
           (results_fields entity_records) entity_records); reflexivity.
Defined.

Lemma ner_overwrites_classify_witness :
  let ui1 := set_table_output (DTable (records_table as_parsed greeting_records)) hello_ui in
  let w1 := log_request (classify_request "Hello world") sample_world in
  let ui2 := set_table_output (DTable (records_table as_parsed entity_records)) hello_ui in
  let w2 := log_request (ner_request "Hello world") w1 in
  ui_table_output ui1 = Some (DTable (records_table as_parsed greeting_records)) /\
  exists d : display,
    request as_parsed stub_other (ner extraction_send extraction_loads) "Hello world" w1 =
      (Return d, w2) /\
    ui2 = set_table_output d hello_ui.
Proof.
  split; [reflexivity|].
  apply (ner_overwrites_classify extraction_send extraction_loads as_parsed stub_other
           hello_ui
           (set_table_output (DTable (records_table as_parsed greeting_records)) hello_ui)
           (set_table_output (DTable (records_table as_parsed entity_records)) hello_ui)
           sample_world
           (log_request (classify_request "Hello world") sample_world)
           (log_request (ner_request "Hello world")
              (log_request (classify_request "Hello world") sample_world)));
    reflexivity.
Defined.

Lemma translate_button_click_undetected_witness :
  translate_button_click stub_send stub_loads stub_detect as_parsed stub_other blank_ui
                         sample_world =
    (Return (set_translate_output (DValue (JStr "")) blank_ui),
     log_request supported_request sample_world).
Proof.
  apply (translate_button_click_undetected stub_send stub_loads stub_detect as_parsed stub_other
           blank_ui sample_world supported_response (JArr (map JStr stub_supported)));
    reflexivity.
Defined.

Lemma translate_button_click_text_witness :
  translate_button_click stub_send stub_loads stub_detect as_parsed stub_other hello_ui
                         sample_world =
    (Return (set_translate_output (DValue (JStr "Hallo Welt")) hello_ui),
     log_request (translate_request "Hello world" "eng_Latn" "deu_Latn")
                 (log_request supported_request sample_world)).
Proof.
  apply (translate_button_click_text stub_send stub_loads stub_detect as_parsed stub_other
           hello_ui sample_world supported_response
           ["deu_Latn"] ["eng_Cyrl"; "ces_Latn"] "eng_Latn" "deu_Latn" ENGLISH
           "reply-body" [("text", JStr "Hallo Welt")] (JStr "Hallo Welt"));
    try reflexivity.
  repeat constructor.
Defined.

Lemma upload_text_normalised_witness :
  files uploads_world !! "/tmp/dos.txt" = Some dos_bytes /\
  contains_byte CR dos_bytes = true /\
  exists text : string,
    upload_file "/tmp/dos.txt" uploads_world = (Return text, uploads_world) /\
    contains_byte CR text = false /\
    String.length text <= String.length dos_bytes /\
    universal_newlines text = text.
Proof.
  split; [reflexivity|]. split; [reflexivity|].
  apply (upload_text_normalised "/tmp/dos.txt" dos_bytes uploads_world); reflexivity.
Defined.

Lemma upload_ascii_file_witness :
  upload_button_upload "/tmp/bonjour.txt" sample_ui uploads_world =
    (Return (set_text "Bonjour" sample_ui), uploads_world).
Proof.
  apply (upload_ascii_file "/tmp/bonjour.txt" "Bonjour" sample_ui uploads_world);
    reflexivity.
Defined.

Lemma upload_rejects_foreign_bytes_witness :
  upload_button_upload "/tmp/utf16.txt" sample_ui uploads_world =
    (Raise UnicodeDecodeError, uploads_world).
Proof.
  apply (upload_rejects_foreign_bytes "/tmp/utf16.txt" utf16_bytes sample_ui
           uploads_world); reflexivity.
Defined.

Lemma upload_text_well_formed_witness :
  let ui' := set_text (universal_newlines dos_bytes) sample_ui in
  upload_button_upload "/tmp/dos.txt" sample_ui uploads_world =
    (Return ui', uploads_world) /\
  utf8_valid (ui_text ui') = true /\
  utf8_decode (ui_text ui') = Some (ui_text ui').
Proof.
  split; [reflexivity|].
  apply (upload_text_well_formed "/tmp/dos.txt" sample_ui
           (set_text (universal_newlines dos_bytes) sample_ui)
           uploads_world uploads_world); reflexivity.
Defined.

Lemma translate_scalar_language_list_witness :
  translate stub_send null_loads stub_detect "Hello world" "German" sample_world =
    (Raise TypeError, log_request supported_request sample_world).
Proof.
  apply (translate_scalar_language_list stub_send null_loads stub_detect
           "Hello world" "German" sample_world
           (JObj [("supported_languages", JNull)]) JNull ENGLISH); reflexivity.
Defined.

Lemma translate_fetch_failure_witness :
  translate down_send stub_loads stub_detect "%%%" "German" sample_world =
    (Raise RequestException, log_request supported_request sample_world) /\
  translate stub_send keyless_loads stub_detect "%%%" "German" sample_world =
    (Raise (KeyError "supported_languages"), log_request supported_request sample_world).
Proof.
  split.
  - apply (proj1 (translate_fetch_failure down_send stub_loads stub_detect
                    "%%%" "German" sample_world)). reflexivity.
  - apply (proj1 (proj2 (proj2 (translate_fetch_failure stub_send keyless_loads
                                  stub_detect "%%%" "German" sample_world)
                               "supported-body" eq_refl))
                 [("languages", JArr [])]); reflexivity.
Defined.

Lemma upload_failures_witness :
  upload_button_upload "/tmp/missing.txt" sample_ui uploads_world =
    (Raise FileNotFoundError, uploads_world).
Proof.
  apply (proj1 (proj2 (proj2 (upload_failures "/tmp/missing.txt" sample_ui
                                uploads_world)))). reflexivity.
Defined.

Lemma extraction_click_failure_witness :
  classify_button_click down_send stub_loads as_parsed stub_other hello_ui sample_world =
    (Raise RequestException, log_request (classify_request "Hello world") sample_world).
Proof.
  apply (proj1 (extraction_click_failure down_send stub_loads as_parsed stub_other hello_ui
                  sample_world)). reflexivity.
Defined.
